(** * Pattern Mirror: the profile accumulation protocol

    A shallow embedding of the client-side core of the journaling
    application: the file picker ([components/FileUpload.tsx]), the model
    service ([services/geminiService.ts], in its two history-aware
    revisions) and the orchestrator ([App.tsx]: load on mount and
    [handleAnalyze]).

    Conventions of the embedding.
    - A JavaScript string is a [string]: a sequence of code units, each an
      [ascii], so the model covers the strings whose code units are below
      256.  The two punctuation marks of the prompt template that lie above
      that range appear as their UTF-8 bytes; no statement depends on them.
    - A value produced by [JSON.parse] is a [json]; a JavaScript value that
      may also be [undefined] is a [value].
    - Code that can throw, await or write state runs in the monad [M]: a
      state transformer that returns either a value or the thrown object.
      State written before a throw stays written, as in JavaScript. *)

From Stdlib Require Import String Ascii List Arith Lia DecimalString.
From stdpp Require Import base tactics option list strings.

Set Warnings "-register-all".
Set Warnings "-abstract-large-number".


(* ===================================================================== *)
(** * JavaScript values and library functions *)
(* ===================================================================== *)

Module JS.

(** ** Strings *)

Definition nl : string := String "010"%char EmptyString.
Definition dquote : string := String "034"%char EmptyString.

(** The white space that [String.prototype.trim] removes, among the code
    units below 256: TAB, LF, VT, FF, CR, SPACE and NBSP. *)
Definition is_ws (c : ascii) : bool :=
  match nat_of_ascii c with
  | 9 | 10 | 11 | 12 | 13 | 32 | 160 => true
  | _ => false
  end.

Fixpoint trimStart (s : string) : string :=
  match s with
  | EmptyString => EmptyString
  | String c r => if is_ws c then trimStart r else s
  end.

Fixpoint trimEnd (s : string) : string :=
  match s with
  | EmptyString => EmptyString
  | String c r =>
      match trimEnd r with
      | EmptyString => if is_ws c then EmptyString else String c EmptyString
      | r' => String c r'
      end
  end.

(** [s.trim()] *)
Definition trim (s : string) : string := trimEnd (trimStart s).

(** A string of white space only (the empty string included). *)
Fixpoint whitespace_only (s : string) : bool :=
  match s with
  | EmptyString => true
  | String c r => is_ws c && whitespace_only r
  end.

(** [s.slice(0, n)] *)
Definition slice0 (n : nat) (s : string) : string := substring 0 n s.

(** [s.replace(/\n/g, ' ')] *)
Fixpoint replace_newlines (s : string) : string :=
  match s with
  | EmptyString => EmptyString
  | String c r =>
      String (if Ascii.eqb c "010"%char then " "%char else c)
             (replace_newlines r)
  end.

(** [s.split(sep)] for a one-character separator. *)
Fixpoint split (sep : ascii) (s : string) : list string :=
  match s with
  | EmptyString => [EmptyString]
  | String c r =>
      if Ascii.eqb c sep then EmptyString :: split sep r
      else match split sep r with
           | [] => [String c EmptyString]
           | w :: ws => String c w :: ws
           end
  end.

(** [l.join(sep)] *)
Definition join (sep : string) (l : list string) : string := String.concat sep l.

(** A number in a template literal: its decimal digits. *)
Definition decimal (n : nat) : string := NilZero.string_of_uint (Nat.to_uint n).

(** [hay.includes(needle)] *)
Fixpoint includes (needle hay : string) : bool :=
  String.prefix needle hay ||
  match hay with
  | EmptyString => false
  | String _ r => includes needle r
  end.

(** A string in a condition: the empty string is falsy. *)
Definition nonempty (s : string) : bool :=
  match s with EmptyString => false | _ => true end.

(** ** JSON *)

(** What [JSON.parse] returns.  A number is kept as the integer its
    literal denotes and stands for the double nearest to it, which is
    what [JSON.parse] returns: from [2^1024 - 2^970] on that double is
    [Infinity] (so is the value of the text [1e999]).  The code under
    study does no arithmetic on parsed numbers; a fractional number has
    no counterpart here, and the sign of zero is not kept apart. *)
Inductive json : Type :=
| JNull
| JBool (b : bool)
| JNum (n : Z)
| JStr (s : string)
| JArr (items : list json)
| JObj (fields : list (string * json)).

(** [Number.isFinite] of the double a parsed number stands for. *)
Definition isFinite (n : Z) : bool :=
  (Z.abs n <? 2 ^ 1024 - 2 ^ 970)%Z.

(** [JSON.parse(JSON.stringify(j))] of parsed data [j]: [JSON.stringify]
    writes a number that is not finite as [null], at any depth, and
    everything else as [JSON.parse] reads it back. *)
Fixpoint reparsed (j : json) : json :=
  match j with
  | JNum n => if isFinite n then JNum n else JNull
  | JArr items => JArr (List.map reparsed items)
  | JObj fields => JObj (List.map (fun kv => (fst kv, reparsed (snd kv))) fields)
  | _ => j
  end.

(** Whether every number of parsed data is finite. *)
Fixpoint finite_numbers (j : json) : bool :=
  match j with
  | JNum n => isFinite n
  | JArr items => forallb finite_numbers items
  | JObj fields => forallb (fun kv => finite_numbers (snd kv)) fields
  | _ => true
  end.

(** A JavaScript value that is [undefined] or JSON data. *)
Inductive value : Type :=
| undefined
| Val (j : json).

Definition null : value := Val JNull.

(** Truthiness, as tested by [x ? a : b] and [!x]. *)
Definition truthy (v : value) : bool :=
  match v with
  | undefined | Val JNull => false
  | Val (JBool b) => b
  | Val (JNum n) => negb (Z.eqb n 0)
  | Val (JStr s) => nonempty s
  | Val (JArr _) | Val (JObj _) => true
  end.

(** The own property [k] of a parsed object; the first binding stands
    for the property ([JSON.parse] keeps one binding per key). *)
Fixpoint lookup_field (k : string) (fields : list (string * json)) : value :=
  match fields with
  | [] => undefined
  | (k', j) :: rest => if String.eqb k k' then Val j else lookup_field k rest
  end.

(** A string seen through [JSON.parse] at the type [A] the caller reads
    it at: the empty string, a non-empty string that [JSON.parse]
    rejects, or a well-formed text and the data it denotes. *)
Inductive text (A : Type) : Type :=
| EmptyText
| Malformed
| Json (a : A).
Arguments EmptyText {A}.
Arguments Malformed {A}.
Arguments Json {A} a.

Definition text_truthy {A} (t : text A) : bool :=
  match t with EmptyText => false | _ => true end.

(** ** Exceptions and state *)

(** A thrown object, as far as the code looks at it: its [message]
    property, which is absent on a rejection with an event object.
    Everything the code of the repository and the browser interfaces it
    calls throw or reject with is an object: [new Error(...)], the
    [TypeError] and [SyntaxError] of the runtime, the [DOMException] of
    the storage, the event of a failed file read.  A thrown [null] or
    [undefined], on which reading [err.message] would itself throw, has
    no counterpart here; the service never lets one through, since it
    replaces whatever the call to the model rejects with by an [Error]. *)
Inductive thrown : Type := Thrown (message : option string).

(** [new Error(msg)] *)
Definition Error (msg : string) : thrown := Thrown (Some msg).
(** The [TypeError] and [SyntaxError] of the runtime.  Their message is
    the engine's; the name stands for it here, and no modelled path shows
    it to the user. *)
Definition TypeError : thrown := Thrown (Some "TypeError").
Definition SyntaxError : thrown := Thrown (Some "SyntaxError").

Inductive result (A : Type) : Type :=
| Ret (a : A)
| Throw (e : thrown).
Arguments Ret {A} a.
Arguments Throw {A} e.

Definition M (S A : Type) : Type := S -> S * result A.

Definition ret {S A} (a : A) : M S A := fun s => (s, Ret a).
Definition throw {S A} (e : thrown) : M S A := fun s => (s, Throw e).
Definition bind {S A B} (m : M S A) (k : A -> M S B) : M S B :=
  fun s => match m s with
           | (s', Ret a) => k a s'
           | (s', Throw e) => (s', Throw e)
           end.
(** [try { m } catch (e) { h e }] *)
Definition try_catch {S A} (m : M S A) (h : thrown -> M S A) : M S A :=
  fun s => match m s with
           | (s', Ret a) => (s', Ret a)
           | (s', Throw e) => h e s'
           end.
Definition modify {S} (f : S -> S) : M S unit := fun s => (f s, Ret tt).

(** [JSON.parse(t)] *)
Definition JSON_parse {S A} (t : text A) : M S A :=
  match t with
  | Json a => ret a
  | EmptyText | Malformed => throw SyntaxError
  end.

(** [j.k] for a property name [k] that no prototype defines (all the
    names read by the service are such): a [TypeError] on [null],
    [undefined] on every other non-object. *)
Definition get_prop {S} (j : json) (k : string) : M S value :=
  match j with
  | JNull => throw TypeError
  | JObj fields => ret (lookup_field k fields)
  | _ => ret undefined
  end.

End JS.

Export JS.

Declare Scope js_scope.
Delimit Scope js_scope with js.
Notation "x <- m ;; k" := (bind m (fun x => k))
  (at level 100, m at next level, right associativity) : js_scope.
Notation "m ;;; k" := (bind m (fun _ => k))
  (at level 100, right associativity) : js_scope.
Local Open Scope js_scope.

(* ===================================================================== *)
(** * types.ts *)
(* ===================================================================== *)

(** The fields of an [AnalysisResult] hold whatever the parsed response had
    under their names: the service copies them without looking at them. *)
Record AnalysisResult : Type := {
  overview : value;
  emotional_patterns : value;
  environment_patterns : value;
  behavioral_loops : value;
  triggers : value;
  recurring_themes : value;
  core_pursuits_and_why : value;
  reflection_prompts : value;
}.

Record AnalysisState : Type := {
  isLoading : bool;
  error : option string;
  result : option AnalysisResult;
}.

(** A browser [File]: its MIME type and what [FileReader.readAsDataURL]
    delivers for it ([None] when the read fails). *)
Record File : Type := {
  file_name : string;
  file_type : string;
  file_dataURL : option string;
}.

Record UploadedFile : Type := {
  file : File;
  previewUrl : string;
}.

Record JournalEntry : Type := {
  id : string;
  timestamp : string;
  text : string;
  journalPhotoCount : nat;
  spacePhotoCount : nat;
}.

(** [UserPatternProfile | null] is a [value] here: the stored profile is the
    [pattern_profile] property of the parsed response, kept as it came. *)
Definition UserPatternProfile : Type := value.

(* ===================================================================== *)
(** * components/FileUpload.tsx *)
(* ===================================================================== *)

Module FileUpload.

(** The default of the [maxFiles] prop; [App] never passes another. *)
Definition maxFiles : nat := 5.

Section Component.
(** [URL.createObjectURL] *)
Variable createObjectURL : File -> string.

(** [handleFileSelect]: [selected] is [e.target.files] ([None] when it
    is null); the result is the list handed to [onFilesChange], or the
    unchanged [files] when [onFilesChange] is not called. *)
Definition handleFileSelect (maxFiles : nat) (files : list UploadedFile)
    (selected : option (list File)) : list UploadedFile :=
  match selected with
  | Some fs =>
      let newFiles :=
        (fun f => {| file := f; previewUrl := createObjectURL f |}) <$> fs in
      take maxFiles (files ++ newFiles)
  | None => files
  end.
End Component.

(** [l.filter((_, index) => p index)], counting from [i]. *)
Fixpoint filter_index {A} (p : nat -> bool) (i : nat) (l : list A) : list A :=
  match l with
  | [] => []
  | x :: r => if p i then x :: filter_index p (S i) r
              else filter_index p (S i) r
  end.

(** [removeFile]: the state is the [files] prop as the parent holds it.
    [onFilesChange] runs first; reading [files[indexToRemove].previewUrl]
    then throws when the index is out of range. *)
Definition removeFile (indexToRemove : nat) : M (list UploadedFile) unit :=
  fun files =>
    let updatedFiles :=
      filter_index (fun index => negb (Nat.eqb index indexToRemove)) 0 files in
    (updatedFiles,
     match files !! indexToRemove with
     | Some _ => Ret tt
     | None => Throw TypeError
     end).

(** What a user can do to one picker. *)
Inductive action : Type :=
| Select (selected : option (list File))
| Remove (indexToRemove : nat).

Definition step (createObjectURL : File -> string)
    (files : list UploadedFile) (a : action) : list UploadedFile :=
  match a with
  | Select selected => handleFileSelect createObjectURL maxFiles files selected
  | Remove i => fst (removeFile i files)
  end.

(** The picker starts empty ([useState<UploadedFile[]>([])] in [App]). *)
Definition run (createObjectURL : File -> string) (actions : list action)
    : list UploadedFile :=
  fold_left (step createObjectURL) actions [].

End FileUpload.

(* ===================================================================== *)
(** * services/geminiService.ts *)
(* ===================================================================== *)

(** A content part of the request. *)
Inductive part : Type :=
| TextPart (text : string)
| InlineData (data : option string) (mimeType : string).

(** The [Schema] declarations the service uses ([Type.STRING],
    [Type.ARRAY], [Type.OBJECT]); the [description] strings are left out. *)
Inductive Schema : Type :=
| STRING
| ARRAY (items : Schema)
| OBJECT (properties : list (string * Schema)) (required : list string).

(** The argument of [ai.models.generateContent].  The system instruction
    and the temperature are constants of the service and are left out. *)
Record request : Type := {
  model : string;
  contents : list part;
  responseMimeType : string;
  responseSchema : Schema;
}.

(** What the model endpoint does with a request: the promise rejects, or
    it resolves to a response whose [text] is a string or undefined. *)
Inductive reply : Type :=
| Rejected (e : thrown)
| Response (text : option (JS.text json)).

(** The world outside the program, as one call of the program sees it. *)
Record Env : Type := {
  (** [process.env.API_KEY] *)
  API_KEY : option string;
  (** the model endpoint behind [generateContent] *)
  endpoint : request -> reply;
  (** [new Date(ts).toLocaleDateString()] *)
  toLocaleDateString : string -> string;
  (** [JSON.stringify(v, null, 2)] *)
  JSON_stringify_indented : value -> string;
  (** [crypto.randomUUID()] *)
  randomUUID : string;
  (** [new Date().toISOString()] *)
  toISOString_now : string;
  (** what [localStorage.getItem] throws, if it throws *)
  getItem_throws : option thrown;
  (** what [localStorage.setItem] throws for a key, if it throws (a full
      or disabled storage) *)
  setItem_throws : string -> option thrown;
}.

Module Service.

Definition RESPONSE_SCHEMA : Schema :=
  OBJECT
    [ ("overview", STRING);
      ("emotional_patterns", ARRAY STRING);
      ("environment_patterns", ARRAY STRING);
      ("behavioral_loops", ARRAY STRING);
      ("triggers", ARRAY STRING);
      ("recurring_themes", ARRAY STRING);
      ("core_pursuits_and_why", STRING);
      ("reflection_prompts", ARRAY STRING);
      ("pattern_profile",
        OBJECT
          [ ("summary", STRING);
            ("tendencies", ARRAY STRING);
            ("typical_triggers", ARRAY STRING);
            ("typical_coping_styles", ARRAY STRING);
            ("last_updated", STRING) ]
          [ "summary"; "tendencies"; "typical_triggers";
            "typical_coping_styles"; "last_updated" ]) ]
    [ "overview"; "emotional_patterns"; "environment_patterns";
      "behavioral_loops"; "triggers"; "recurring_themes";
      "core_pursuits_and_why"; "reflection_prompts"; "pattern_profile" ].

Definition missing_key_message : string :=
  "API Key is missing. Please ensure process.env.API_KEY is set.".
Definition no_content_message : string :=
  "Please provide some text or images to analyze.".
Definition no_response_message : string :=
  "No response received from the model.".
Definition failed_message : string :=
  "Failed to analyze patterns. Please try again.".

(** [fileToGenerativePart]: the promise rejects with the reader's error
    event when the read fails; otherwise the part carries what follows
    the first comma of the data URL. *)
Definition fileToGenerativePart {S} (file : File) : M S part :=
  match file_dataURL file with
  | None => throw (Thrown None)
  | Some base64String =>
      let base64Data := split ","%char base64String !! 1 in
      ret (InlineData base64Data (file_type file))
  end.

(** [for (const file of files) { parts.push(await fileToGenerativePart(file)) }] *)
Fixpoint pushFiles {S} (files : list File) (parts : list part)
    : M S (list part) :=
  match files with
  | [] => ret parts
  | file :: rest =>
      p <- fileToGenerativePart file ;;
      pushFiles rest (parts ++ [p])
  end.

(** [pastEntries.slice(-n)] *)
Definition slice_last {A} (n : nat) (l : list A) : list A :=
  drop (length l - n) l.

(** The argument the service passes to [generateContent]. *)
Definition mkRequest (parts : list part) : request :=
  {| model := "gemini-3-pro-preview";
     contents := parts;
     responseMimeType := "application/json";
     responseSchema := RESPONSE_SCHEMA |}.

Section WithEnv.
Context (env : Env).

Definition previousProfileText (previousProfile : UserPatternProfile) : string :=
  if truthy previousProfile
  then JSON_stringify_indented env previousProfile
  else "None yet. You are building the first version of this profile.".

(** ** The revision with pattern signals (bound 400) *)

Definition signalsEntry (index : nat) (e : JournalEntry) : string :=
  let date := toLocaleDateString env (timestamp e) in
  let snippet := replace_newlines (slice0 400 (text e)) in
  "ENTRY #" +:+ decimal (index + 1) +:+ " – [" +:+ date +:+ "]:" +:+ nl +:+
  "- Text snippet (what you wrote): " +:+ dquote +:+ snippet +:+
    (if 400 <? String.length (text e) then "..." else EmptyString) +:+ dquote +:+ nl +:+
  "- Pattern signals (you infer these from this entry + the previous pattern_profile):" +:+ nl +:+
  "  • Identify 1–3 recurring behaviors, emotions, avoidance patterns, coping styles, or triggers shown in this entry." +:+ nl +:+
  "  • These bullet points are high-level clues that help you detect repeating patterns across entries.".

Definition pastEntriesBlock (pastEntries : list JournalEntry) : string :=
  if 0 <? length pastEntries
  then join (nl +:+ nl) (imap signalsEntry (reverse (slice_last 10 pastEntries)))
  else "No past entries. This is the first one.".

Definition signalsContext (pastEntries : list JournalEntry)
    (previousProfile : UserPatternProfile) : string :=
  "PAST PATTERN SIGNALS (most recent first):" +:+ nl +:+
  pastEntriesBlock pastEntries +:+ nl +:+ nl +:+
  "PREVIOUS PATTERN PROFILE (if any):" +:+ nl +:+
  previousProfileText previousProfile +:+ nl +:+ nl +:+
  "CURRENT ENTRY TO ANALYZE:".

(** ** The revision with summarized entries (bound 500) *)

Definition summaryEntry (e : JournalEntry) : string :=
  "- [" +:+ timestamp e +:+ "] " +:+ slice0 500 (text e) +:+
  (if 500 <? String.length (text e) then "..." else EmptyString).

Definition historySummaryText (pastEntries : list JournalEntry) : string :=
  join nl (summaryEntry <$> reverse (slice_last 10 pastEntries)).

Definition summaryContext (pastEntries : list JournalEntry)
    (previousProfile : UserPatternProfile) : string :=
  "PAST ENTRIES (summarized):" +:+ nl +:+
  (if nonempty (historySummaryText pastEntries)
   then historySummaryText pastEntries
   else "No past entries. This is the first one.") +:+ nl +:+ nl +:+
  "PREVIOUS PATTERN PROFILE (if any):" +:+ nl +:+
  previousProfileText previousProfile +:+ nl +:+ nl +:+
  "CURRENT ENTRY TO ANALYZE:".

(** ** The call itself

    The two revisions differ only in the context block, so the body is
    written once over [contextBlock]. *)

Definition api_key_set : bool :=
  match API_KEY env with
  | Some k => nonempty k
  | None => false
  end.

(** [await ai.models.generateContent(...)]: the request leaves the
    process (it is appended to the log of dispatched requests) and the
    endpoint answers. *)
Definition generateContent (parts : list part)
    : M (list request) (option (JS.text json)) :=
  fun sent =>
    let req := mkRequest parts in
    (sent ++ [req],
     match endpoint env req with
     | Rejected e => Throw e
     | Response t => Ret t
     end).

(** The [parts] array as it stands when the content check is reached. *)
Definition buildParts (contextBlock : string) (journalText : string)
    (journalPhotos spacePhotos : list File) : M (list request) (list part) :=
  let parts := [TextPart contextBlock] in
  let parts :=
    parts ++
    [ if nonempty (trim journalText)
      then TextPart ("JOURNAL ENTRIES/NOTES:" +:+ nl +:+ journalText)
      else TextPart "(No text provided for this entry)" ] in
  parts <- (if 0 <? length journalPhotos
            then pushFiles journalPhotos
                   (parts ++ [TextPart "Here are photos of handwritten journal entries:"])
            else ret parts) ;;
  (if 0 <? length spacePhotos
   then pushFiles spacePhotos
          (parts ++ [TextPart "Here are photos of my room/workspace/environment:"])
   else ret parts).

(** The [try { ... } catch (error) { ... }] block that ends the call. *)
Definition requestAnalysis (parts : list part)
    : M (list request) (AnalysisResult * UserPatternProfile) :=
  try_catch
    (response_text <- generateContent parts ;;
     textResponse <-
       match response_text with
       | Some t => if text_truthy t then ret t
                   else throw (Error no_response_message)
       | None => throw (Error no_response_message)
       end ;;
     jsonResponse <- JSON_parse textResponse ;;
     v1 <- get_prop jsonResponse "overview" ;;
     v2 <- get_prop jsonResponse "emotional_patterns" ;;
     v3 <- get_prop jsonResponse "environment_patterns" ;;
     v4 <- get_prop jsonResponse "behavioral_loops" ;;
     v5 <- get_prop jsonResponse "triggers" ;;
     v6 <- get_prop jsonResponse "recurring_themes" ;;
     v7 <- get_prop jsonResponse "core_pursuits_and_why" ;;
     v8 <- get_prop jsonResponse "reflection_prompts" ;;
     let analysis :=
       {| overview := v1;
          emotional_patterns := v2;
          environment_patterns := v3;
          behavioral_loops := v4;
          triggers := v5;
          recurring_themes := v6;
          core_pursuits_and_why := v7;
          reflection_prompts := v8 |} in
     pattern_profile <- get_prop jsonResponse "pattern_profile" ;;
     ret (analysis, pattern_profile))
    (fun _ => throw (Error failed_message)).

Definition analyzeWith
    (contextBlock : list JournalEntry -> UserPatternProfile -> string)
    (journalText : string) (journalPhotos spacePhotos : list File)
    (pastEntries : list JournalEntry) (previousProfile : UserPatternProfile)
    : M (list request) (AnalysisResult * UserPatternProfile) :=
  if negb api_key_set then throw (Error missing_key_message)
  else
    parts <- buildParts (contextBlock pastEntries previousProfile)
               journalText journalPhotos spacePhotos ;;
    if (String.length (trim journalText) =? 0)
       && (length journalPhotos =? 0) && (length spacePhotos =? 0)
    then throw (Error no_content_message)
    else requestAnalysis parts.

End WithEnv.

(** [analyzePatterns] of the revision with pattern signals. *)
Definition analyzePatterns (env : Env) :=
  analyzeWith env (signalsContext env).


End Service.

(* ===================================================================== *)
(** * App.tsx *)
(* ===================================================================== *)

Module App.

(** The React state of the component. *)
Record AppState : Type := {
  journalText : string;
  journalPhotos : list UploadedFile;
  spacePhotos : list UploadedFile;
  history : list JournalEntry;
  profile : UserPatternProfile;
  analysisState : AnalysisState;
}.

(** The two items the application keeps in [localStorage], each absent
    ([getItem] gives null) or a string.  The history item is read at the
    type the component declares for it, [JournalEntry[]]: a well-formed
    text of another shape lies outside the model. *)
Record Storage : Type := {
  patternMirrorHistory : option (JS.text (list JournalEntry));
  patternMirrorProfile : option (JS.text json);
}.

(** The state a handler runs in. *)
Record Browser : Type := {
  app : AppState;
  network : list request;
  localStorage : Storage;
}.

Definition initialState : AppState :=
  {| journalText := EmptyString;
     journalPhotos := [];
     spacePhotos := [];
     history := [];
     profile := null;
     analysisState := {| isLoading := false; error := None; result := None |} |}.

Definition with_app (f : AppState -> AppState) (b : Browser) : Browser :=
  {| app := f (app b); network := network b; localStorage := localStorage b |}.

Definition setHistory (h : list JournalEntry) : M Browser unit :=
  modify (with_app (fun a =>
    {| journalText := journalText a; journalPhotos := journalPhotos a;
       spacePhotos := spacePhotos a; history := h; profile := profile a;
       analysisState := analysisState a |})).

Definition setProfile (p : UserPatternProfile) : M Browser unit :=
  modify (with_app (fun a =>
    {| journalText := journalText a; journalPhotos := journalPhotos a;
       spacePhotos := spacePhotos a; history := history a; profile := p;
       analysisState := analysisState a |})).

Definition setAnalysisState (s : AnalysisState) : M Browser unit :=
  modify (with_app (fun a =>
    {| journalText := journalText a; journalPhotos := journalPhotos a;
       spacePhotos := spacePhotos a; history := history a;
       profile := profile a; analysisState := s |})).

(** A call of the service: it runs on the log of dispatched requests. *)
Definition await {A} (m : M (list request) A) : M Browser A :=
  fun b =>
    let '(sent, r) := m (network b) in
    ({| app := app b; network := sent; localStorage := localStorage b |}, r).

(** [JSON.stringify] of the history and of the profile, as
    [localStorage.setItem] stores them and as [JSON.parse] will read
    them.  An entry holds strings and two array lengths, which are read
    back as they were.  The profile is data parsed from the response: it
    is read back as [JSON.stringify] wrote it, with [null] for a number
    that is not finite.  [JSON.stringify(undefined)] is undefined, which
    [setItem] stores as a string that is not JSON. *)
Definition stringify_history (h : list JournalEntry) : JS.text (list JournalEntry) :=
  Json h.
Definition stringify_profile (p : UserPatternProfile) : JS.text json :=
  match p with
  | Val j => Json (reparsed j)
  | undefined => Malformed
  end.

Section WithEnv.
Context (env : Env).
(** The import from [./services/geminiService]. *)
Variable analyzePatterns :
  string -> list File -> list File -> list JournalEntry ->
  UserPatternProfile -> M (list request) (AnalysisResult * UserPatternProfile).

Definition getItem {A} (read : Storage -> option (JS.text A))
    : M Browser (option (JS.text A)) :=
  fun b =>
    match getItem_throws env with
    | Some e => (b, Throw e)
    | None => (b, Ret (read (localStorage b)))
    end.

Definition setItem (key : string) (write : Storage -> Storage)
    : M Browser unit :=
  fun b =>
    match setItem_throws env key with
    | Some e => (b, Throw e)
    | None =>
        ({| app := app b; network := network b;
            localStorage := write (localStorage b) |}, Ret tt)
    end.

Definition setItem_history (t : JS.text (list JournalEntry)) : M Browser unit :=
  setItem "patternMirrorHistory"
    (fun st => {| patternMirrorHistory := Some t;
                  patternMirrorProfile := patternMirrorProfile st |}).

Definition setItem_profile (t : JS.text json) : M Browser unit :=
  setItem "patternMirrorProfile"
    (fun st => {| patternMirrorHistory := patternMirrorHistory st;
                  patternMirrorProfile := Some t |}).

(** The effect that loads from [localStorage] on mount. *)
Definition load : M Browser unit :=
  try_catch
    (storedHistory <- getItem patternMirrorHistory ;;
     storedProfile <- getItem patternMirrorProfile ;;
     match storedHistory with
     | Some t => if text_truthy t
                 then (h <- JSON_parse t ;; setHistory h)
                 else ret tt
     | None => ret tt
     end ;;;
     match storedProfile with
     | Some t => if text_truthy t
                 then (p <- JSON_parse t ;; setProfile (Val p))
                 else ret tt
     | None => ret tt
     end)
    (fun e => ret tt).

(** [err.message || "Something went wrong during analysis."] *)
Definition message_or_default (err : thrown) : string :=
  match err with
  | Thrown (Some m) =>
      if nonempty m then m else "Something went wrong during analysis."
  | Thrown None => "Something went wrong during analysis."
  end.

(** The entry [handleAnalyze] records. *)
Definition newEntry (a : AppState) : JournalEntry :=
  {| id := randomUUID env;
     timestamp := toISOString_now env;
     text := trim (journalText a);
     journalPhotoCount := length (journalPhotos a);
     spacePhotoCount := length (spacePhotos a) |}.

(** [handleAnalyze]; [a] is the state of the render whose handler
    runs (the closure reads it, the setters write the next state). *)
Definition handleAnalyze (a : AppState) : M Browser unit :=
  setAnalysisState {| isLoading := true; error := None; result := None |} ;;;
  try_catch
    (let jFiles := file <$> journalPhotos a in
     let sFiles := file <$> spacePhotos a in
     r <- await (analyzePatterns (journalText a) jFiles sFiles
                   (history a) (profile a)) ;;
     let '(analysis, pattern_profile) := r in
     let updatedHistory := history a ++ [newEntry a] in
     setHistory updatedHistory ;;;
     setProfile pattern_profile ;;;
     setAnalysisState
       {| isLoading := false; error := None; result := Some analysis |} ;;;
     setItem_history (stringify_history updatedHistory) ;;;
     setItem_profile (stringify_profile pattern_profile))
    (fun err =>
       setAnalysisState
         {| isLoading := false;
            error := Some (message_or_default err);
            result := None |}).

(** The service call that the handler of state [a] makes, on the
    requests sent so far. *)
Definition serviceCall (a : AppState) (sent : list request) :=
  analyzePatterns (journalText a) (file <$> journalPhotos a)
    (file <$> spacePhotos a) (history a) (profile a) sent.

(** The analysis state the [catch] clause sets. *)
Definition failedWith (e : thrown) : AnalysisState :=
  {| isLoading := false; error := Some (message_or_default e); result := None |}.

(** One click on the button: the handler of the current render. *)
Definition click (b : Browser) : Browser :=
  fst (handleAnalyze (app b) b).

End WithEnv.

End App.

(* ===================================================================== *)
(** * Reading of the response schema, and sample data *)
(* ===================================================================== *)

(** Whether parsed data matches a [Schema]: every required property is
    present and every declared property that is present has its type. *)
Fixpoint conforms (s : Schema) (j : json) : bool :=
  match s, j with
  | STRING, JStr _ => true
  | ARRAY items, JArr l => forallb (conforms items) l
  | OBJECT properties required, JObj fields =>
      forallb (fun k => match lookup_field k fields with
                        | undefined => false
                        | Val _ => true
                        end) required
      && forallb (fun '(k, sk) => match lookup_field k fields with
                                  | undefined => true
                                  | Val v => conforms sk v
                                  end) properties
  | _, _ => false
  end.

(** What reading the property [k] of parsed data gives when it gives
    anything: the binding of an object, [undefined] elsewhere. *)
Definition field_of (j : json) (k : string) : value :=
  match j with
  | JObj fields => lookup_field k fields
  | _ => undefined
  end.

(** The pair the service builds from parsed data: each field read by its
    name. *)
Definition fields_by_name (j : json) : AnalysisResult * UserPatternProfile :=
  ({| overview := field_of j "overview";
      emotional_patterns := field_of j "emotional_patterns";
      environment_patterns := field_of j "environment_patterns";
      behavioral_loops := field_of j "behavioral_loops";
      triggers := field_of j "triggers";
      recurring_themes := field_of j "recurring_themes";
      core_pursuits_and_why := field_of j "core_pursuits_and_why";
      reflection_prompts := field_of j "reflection_prompts" |},
   field_of j "pattern_profile").

(** A text cut at a bound, as the prompt contract words it: the text
    itself when it fits, else its first [bound] code units followed by an
    ellipsis. *)
Definition truncated (bound : nat) (t : string) : string :=
  if bound <? String.length t then slice0 bound t +:+ "..." else t.

(** The number of line feeds of a string: its number of lines, less one. *)
Fixpoint count_LF (s : string) : nat :=
  match s with
  | EmptyString => 0
  | String c r => (if Ascii.eqb c "010"%char then 1 else 0) + count_LF r
  end.

(** The entry [e] with another text. *)
Definition retext (e : JournalEntry) (t : string) : JournalEntry :=
  {| id := id e; timestamp := timestamp e; text := t;
     journalPhotoCount := journalPhotoCount e;
     spacePhotoCount := spacePhotoCount e |}.

Module Sample.

(** A response that matches the schema. *)
Definition full_response : json :=
  JObj
    [ ("overview", JStr "You tidy before you begin.");
      ("emotional_patterns", JArr [JStr "unease before starting"]);
      ("environment_patterns", JArr []);
      ("behavioral_loops", JArr [JStr "cleaning the desk before work"]);
      ("triggers", JArr [JStr "a task about to start"]);
      ("recurring_themes", JArr []);
      ("core_pursuits_and_why", JStr "a sense of control");
      ("reflection_prompts", JArr [JStr "What would starting untidy feel like?"]);
      ("pattern_profile",
        JObj
          [ ("summary", JStr "Prepares the space before acting.");
            ("tendencies", JArr [JStr "tidying as a warm-up"]);
            ("typical_triggers", JArr [JStr "starting work"]);
            ("typical_coping_styles", JArr [JStr "ordering the environment"]);
            ("last_updated", JStr "2026-11-02") ]) ].

(** A world where everything works and the model answers [answer]. *)
Definition env_answering (answer : option (JS.text json)) : Env :=
  {| API_KEY := Some "configured";
     endpoint := fun _ => Response answer;
     toLocaleDateString := fun _ => "11/2/2026";
     JSON_stringify_indented := fun _ => "{ }";
     randomUUID := "3f2c9a1e-0000-4000-8000-000000000001";
     toISOString_now := "2026-11-02T09:00:00.000Z";
     getItem_throws := None;
     setItem_throws := fun _ => None |}.

Definition env : Env := env_answering (Some (Json full_response)).

(** A response whose profile has a number too large for a double: the
    text had [1e999] there, which [JSON.parse] reads as [Infinity]. *)
Definition unbounded_response : json :=
  JObj
    [ ("overview", JStr "You tidy before you begin.");
      ("pattern_profile",
        JObj
          [ ("summary", JStr "Prepares the space before acting.");
            ("intensity", JNum (10 ^ 999)) ]) ].

Definition env_unbounded : Env := env_answering (Some (Json unbounded_response)).

(** The same world without the credential. *)
Definition env_no_key : Env :=
  {| API_KEY := None;
     endpoint := endpoint env;
     toLocaleDateString := toLocaleDateString env;
     JSON_stringify_indented := JSON_stringify_indented env;
     randomUUID := randomUUID env;
     toISOString_now := toISOString_now env;
     getItem_throws := None;
     setItem_throws := fun _ => None |}.

(** The same world with a storage that refuses every write. *)
Definition env_storage_full : Env :=
  {| API_KEY := API_KEY env;
     endpoint := endpoint env;
     toLocaleDateString := toLocaleDateString env;
     JSON_stringify_indented := JSON_stringify_indented env;
     randomUUID := randomUUID env;
     toISOString_now := toISOString_now env;
     getItem_throws := None;
     setItem_throws := fun _ => Some (Error "The quota has been exceeded.") |}.

(** The same world with a storage that takes the history and then has no
    room left for the profile. *)
Definition env_storage_nearly_full : Env :=
  {| API_KEY := API_KEY env;
     endpoint := endpoint env;
     toLocaleDateString := toLocaleDateString env;
     JSON_stringify_indented := JSON_stringify_indented env;
     randomUUID := randomUUID env;
     toISOString_now := toISOString_now env;
     getItem_throws := None;
     setItem_throws := fun key =>
       if String.eqb key "patternMirrorProfile"
       then Some (Error "The quota has been exceeded.")
       else None |}.

Definition entry (n : nat) (t : string) : JournalEntry :=
  {| id := decimal n; timestamp := "2026-10-" +:+ decimal (10 + n);
     text := t; journalPhotoCount := 0; spacePhotoCount := 0 |}.

(** Fifteen entries, oldest first. *)
Definition fifteen : list JournalEntry :=
  (fun n => entry n ("entry " +:+ decimal n)) <$> seq 0 15.

(** [n] copies of a character. *)
Fixpoint copies (n : nat) (c : ascii) : string :=
  match n with
  | 0 => EmptyString
  | S n => String c (copies n c)
  end.

(** An entry of 402 code units with a line feed after the first one; the
    text is what the editor records, trimming leaves it as it is. *)
Definition broken_line_entry : JournalEntry :=
  entry 1 ("a" +:+ nl +:+ copies 400 "b"%char).

(** A response that has one of the required fields only. *)
Definition partial_response : json :=
  JObj [ ("overview", JStr "Only an overview.") ].

Definition desk_text : string :=
  "I keep cleaning my desk before I can start work.".

(** A history of two entries: a short one, then the long one. *)
Definition two_entries : list JournalEntry :=
  [entry 0 desk_text; broken_line_entry].

Definition typed (t : string) : App.AppState :=
  {| App.journalText := t;
     App.journalPhotos := [];
     App.spacePhotos := [];
     App.history := [];
     App.profile := null;
     App.analysisState := App.analysisState App.initialState |}.

Definition fresh (a : App.AppState) : App.Browser :=
  {| App.app := a;
     App.network := [];
     App.localStorage := {| App.patternMirrorHistory := None;
                            App.patternMirrorProfile := None |} |}.

(** The component as it mounts over a given storage. *)
Definition mounted (st : App.Storage) : App.Browser :=
  {| App.app := App.initialState; App.network := []; App.localStorage := st |}.

(** A stored history that parses, next to a stored profile that does not. *)
Definition half_corrupt : App.Storage :=
  {| App.patternMirrorHistory := Some (Json [entry 1 "kept"]);
     App.patternMirrorProfile := Some Malformed |}.

(** A stored history that does not parse, next to a profile that does. *)
Definition corrupt_history : App.Storage :=
  {| App.patternMirrorHistory := Some Malformed;
     App.patternMirrorProfile := Some (Json (JObj [])) |}.

End Sample.

(* ===================================================================== *)
(** * App.tsx: the controls around the handler *)
(* ===================================================================== *)

Module Controls.
Import App.

Definition setJournalText (t : string) : M Browser unit :=
  modify (with_app (fun a =>
    {| journalText := t; journalPhotos := journalPhotos a;
       spacePhotos := spacePhotos a; history := history a;
       profile := profile a; analysisState := analysisState a |})).

Definition setJournalPhotos (fs : list UploadedFile) : M Browser unit :=
  modify (with_app (fun a =>
    {| journalText := journalText a; journalPhotos := fs;
       spacePhotos := spacePhotos a; history := history a;
       profile := profile a; analysisState := analysisState a |})).

Definition setSpacePhotos (fs : list UploadedFile) : M Browser unit :=
  modify (with_app (fun a =>
    {| journalText := journalText a; journalPhotos := journalPhotos a;
       spacePhotos := fs; history := history a;
       profile := profile a; analysisState := analysisState a |})).

(** The [onChange] of the text area. *)
Definition onChangeJournalText (value : string) : M Browser unit :=
  setJournalText (slice0 10000 value).

Definition isAnalyzeDisabled (a : AppState) : bool :=
  ((String.length (trim (journalText a)) =? 0)
   && (length (journalPhotos a) =? 0) && (length (spacePhotos a) =? 0))
  || isLoading (analysisState a).

Definition clear_question : string :=
  "Are you sure you want to clear your local history and profile? This cannot be undone.".

Section WithEnv.
Context (env : Env).
(** The import from [./services/geminiService]. *)
Variable analyzePatterns :
  string -> list File -> list File -> list JournalEntry ->
  UserPatternProfile -> M (list request) (AnalysisResult * UserPatternProfile).
(** [URL.createObjectURL] *)
Variable createObjectURL : File -> string.
(** [window.confirm]: the user's answer to a question. *)
Variable confirm : string -> bool.
(** What [localStorage.removeItem] throws for a key, if it throws. *)
Variable removeItem_throws : string -> option thrown.

Definition removeItem (key : string) (write : Storage -> Storage)
    : M Browser unit :=
  fun b =>
    match removeItem_throws key with
    | Some e => (b, Throw e)
    | None =>
        ({| app := app b; network := network b;
            localStorage := write (localStorage b) |}, Ret tt)
    end.

Definition clearHistory : M Browser unit :=
  if confirm clear_question
  then
    setHistory [] ;;;
    setProfile null ;;;
    removeItem "patternMirrorHistory"
      (fun st => {| patternMirrorHistory := None;
                    patternMirrorProfile := patternMirrorProfile st |}) ;;;
    removeItem "patternMirrorProfile"
      (fun st => {| patternMirrorHistory := patternMirrorHistory st;
                    patternMirrorProfile := None |})
  else ret tt.

(** What the user can do to the page.  A picker hands its new list to
    the setter it was given; the analyze button fires only when it is
    not disabled; the clear button exists only over a non-empty
    history.  Events are taken one at a time: each handler, the pending
    call of the service included, runs to its end before the next event
    (no event arrives while a call is pending). *)
Inductive event : Type :=
| ChangeText (value : string)
| JournalPicker (a : FileUpload.action)
| SpacePicker (a : FileUpload.action)
| Analyze
| ClearHistory.

Definition dispatch (b : Browser) (ev : event) : Browser :=
  match ev with
  | ChangeText value => fst (onChangeJournalText value b)
  | JournalPicker a =>
      fst (setJournalPhotos
             (FileUpload.step createObjectURL (journalPhotos (app b)) a) b)
  | SpacePicker a =>
      fst (setSpacePhotos
             (FileUpload.step createObjectURL (spacePhotos (app b)) a) b)
  | Analyze =>
      if isAnalyzeDisabled (app b) then b
      else click env analyzePatterns b
  | ClearHistory =>
      if 0 <? length (history (app b)) then fst (clearHistory b) else b
  end.

(** The page after a sequence of events. *)
Definition session (b : Browser) (evs : list event) : Browser :=
  fold_left dispatch evs b.

End WithEnv.

End Controls.

(* ===================================================================== *)
(** * services/geminiService.ts and App.tsx: the revision without history *)
(* ===================================================================== *)

Module V1.

Definition RESPONSE_SCHEMA : Schema :=
  OBJECT
    [ ("overview", STRING);
      ("emotional_patterns", ARRAY STRING);
      ("environment_patterns", ARRAY STRING);
      ("behavioral_loops", ARRAY STRING);
      ("triggers", ARRAY STRING);
      ("recurring_themes", ARRAY STRING);
      ("core_pursuits_and_why", STRING);
      ("reflection_prompts", ARRAY STRING) ]
    [ "overview"; "emotional_patterns"; "environment_patterns";
      "behavioral_loops"; "triggers"; "recurring_themes";
      "core_pursuits_and_why"; "reflection_prompts" ].

Definition mkRequest (parts : list part) : request :=
  {| model := "gemini-3-pro-preview";
     contents := parts;
     responseMimeType := "application/json";
     responseSchema := RESPONSE_SCHEMA |}.

(** The state of the component: no history and no profile.  The result
    is the parsed response itself; [JNull] is null. *)
Record AnalysisState : Type := {
  isLoading : bool;
  error : option string;
  result : json;
}.

Record AppState : Type := {
  journalText : string;
  journalPhotos : list UploadedFile;
  spacePhotos : list UploadedFile;
  analysisState : AnalysisState;
}.

Record Browser : Type := {
  app : AppState;
  network : list request;
}.

Definition initialState : AppState :=
  {| journalText := EmptyString;
     journalPhotos := [];
     spacePhotos := [];
     analysisState := {| isLoading := false; error := None; result := JNull |} |}.

Definition setAnalysisState (s : AnalysisState) : M Browser unit :=
  modify (fun b =>
    {| app := {| journalText := journalText (app b);
                 journalPhotos := journalPhotos (app b);
                 spacePhotos := spacePhotos (app b);
                 analysisState := s |};
       network := network b |}).

Definition await {A} (m : M (list request) A) : M Browser A :=
  fun b =>
    let '(sent, r) := m (network b) in
    ({| app := app b; network := sent |}, r).

Section WithEnv.
Context (env : Env).

Definition generateContent (parts : list part)
    : M (list request) (option (JS.text json)) :=
  fun sent =>
    let req := mkRequest parts in
    (sent ++ [req],
     match endpoint env req with
     | Rejected e => Throw e
     | Response t => Ret t
     end).

(** The [parts] array as it stands when its length is tested. *)
Definition buildParts (journalText : string)
    (journalPhotos spacePhotos : list File) : M (list request) (list part) :=
  let parts := [] in
  let parts :=
    if nonempty (trim journalText)
    then parts ++ [TextPart ("JOURNAL ENTRIES/NOTES:" +:+ nl +:+ journalText)]
    else parts in
  parts <- (if 0 <? length journalPhotos
            then Service.pushFiles journalPhotos
                   (parts ++ [TextPart "Here are photos of handwritten journal entries:"])
            else ret parts) ;;
  (if 0 <? length spacePhotos
   then Service.pushFiles spacePhotos
          (parts ++ [TextPart "Here are photos of my room/workspace/environment:"])
   else ret parts).

Definition analyzePatterns (journalText : string)
    (journalPhotos spacePhotos : list File) : M (list request) json :=
  if negb (Service.api_key_set env)
  then throw (Error Service.missing_key_message)
  else
    parts <- buildParts journalText journalPhotos spacePhotos ;;
    if length parts =? 0
    then throw (Error Service.no_content_message)
    else
      try_catch
        (response_text <- generateContent parts ;;
         textResponse <-
           match response_text with
           | Some t => if text_truthy t then ret t
                       else throw (Error Service.no_response_message)
           | None => throw (Error Service.no_response_message)
           end ;;
         jsonResponse <- JSON_parse textResponse ;;
         ret jsonResponse)
        (fun _ => throw (Error Service.failed_message)).

Definition handleAnalyze (a : AppState) : M Browser unit :=
  setAnalysisState {| isLoading := true; error := None; result := JNull |} ;;;
  try_catch
    (let jFiles := file <$> journalPhotos a in
     let sFiles := file <$> spacePhotos a in
     result <- await (analyzePatterns (journalText a) jFiles sFiles) ;;
     setAnalysisState {| isLoading := false; error := None; result := result |})
    (fun err =>
       setAnalysisState
         {| isLoading := false;
            error := Some (App.message_or_default err);
            result := JNull |}).

Definition click (b : Browser) : Browser :=
  fst (handleAnalyze (app b) b).

End WithEnv.

End V1.

(* ===================================================================== *)
(** * components/AnalysisResultView.tsx *)
(* ===================================================================== *)

Module ResultView.

(** What [ListContent] renders: the note that there is not enough data,
    or one bullet per item. *)
Inductive ListView : Type :=
| NotEnoughData
| Bullets (items : list json).

(** [items.length] on a value that is not null. *)
Definition length_of (j : json) : value :=
  match j with
  | JArr l => Val (JNum (Z.of_nat (length l)))
  | JStr s => Val (JNum (Z.of_nat (String.length s)))
  | JObj fields => lookup_field "length" fields
  | _ => undefined
  end.

(** [v === 0] *)
Definition is_zero (v : value) : bool :=
  match v with
  | Val (JNum n) => Z.eqb n 0
  | _ => false
  end.

(** Whether React accepts parsed data as a child: it renders strings and
    numbers, renders nothing for booleans and null, renders the items of
    an array, and throws on an object (an error whose message starts as
    written in [child] below). *)
Fixpoint valid_child (j : json) : bool :=
  match j with
  | JObj _ => false
  | JArr l => forallb valid_child l
  | _ => true
  end.

(** [{v}] in JSX. *)
Definition child (v : value) : JS.result value :=
  match v with
  | undefined => Ret undefined
  | Val j => if valid_child j then Ret v
             else Throw (Error "Objects are not valid as a React child")
  end.

(** [items.map(item => <li>...{item}...</li>)] on a value that has passed
    the test of [ListContent]: only an array has a [map] to call. *)
Definition map_items (j : json) : JS.result (list json) :=
  match j with
  | JArr l => if forallb valid_child l then Ret l
              else Throw (Error "Objects are not valid as a React child")
  | _ => Throw TypeError
  end.

Definition ListContent (items : value) : JS.result ListView :=
  match items with
  | undefined => Ret NotEnoughData
  | Val j =>
      if negb (truthy items) || is_zero (length_of j) then Ret NotEnoughData
      else match map_items j with
           | Ret l => Ret (Bullets l)
           | Throw e => Throw e
           end
  end.

(** What the view shows of an analysis. *)
Record View : Type := {
  shown_overview : value;
  shown_emotional : ListView;
  shown_environment : ListView;
  shown_loops : ListView;
  shown_triggers : ListView;
  shown_themes : ListView;
  shown_pursuits : value;
  shown_prompts : list json;
}.

Definition no_pursuits_note : string :=
  "Not enough data to infer core motivations.".

(** [data.reflection_prompts?.map(...)]: nothing for undefined and null,
    the items of an array, and a [TypeError] on anything else, which has
    no [map] to call.  The component calls it in its own body, when it
    builds its elements: before React renders any of them. *)
Definition prompts (v : value) : JS.result (list json) :=
  match v with
  | undefined | Val JNull => Ret []
  | Val (JArr l) => Ret l
  | Val _ => Throw TypeError
  end.

(** The cards of the prompts, when React comes to render them: each
    prompt is the child of its card. *)
Definition cards (l : list json) : JS.result (list json) :=
  if forallb valid_child l then Ret l
  else Throw (Error "Objects are not valid as a React child").

Definition bind_result {A B} (r : JS.result A) (k : A -> JS.result B) : JS.result B :=
  match r with
  | Ret a => k a
  | Throw e => Throw e
  end.

(** The component builds its elements first, which maps the prompts;
    React then renders the elements in document order, each
    [ListContent] with its items before the next section. *)
Definition AnalysisResultView (data : AnalysisResult) : JS.result View :=
  bind_result (prompts (reflection_prompts data)) (fun mapped =>
  bind_result (child (overview data)) (fun o =>
  bind_result (ListContent (emotional_patterns data)) (fun l1 =>
  bind_result (ListContent (environment_patterns data)) (fun l2 =>
  bind_result (ListContent (behavioral_loops data)) (fun l3 =>
  bind_result (ListContent (triggers data)) (fun l4 =>
  bind_result (ListContent (recurring_themes data)) (fun l5 =>
  bind_result (child (if truthy (core_pursuits_and_why data)
                      then core_pursuits_and_why data
                      else Val (JStr no_pursuits_note))) (fun p =>
  bind_result (cards mapped) (fun q =>
  Ret {| shown_overview := o;
         shown_emotional := l1;
         shown_environment := l2;
         shown_loops := l3;
         shown_triggers := l4;
         shown_themes := l5;
         shown_pursuits := p;
         shown_prompts := q |}))))))))).

End ResultView.

(* ===================================================================== *)
(** * Readings of the request, and more sample data *)
(* ===================================================================== *)

(** Whether [FileReader] can read a file. *)
Definition readable (f : File) : bool :=
  match file_dataURL f with
  | Some _ => true
  | None => false
  end.

(** The content part of a file that can be read. *)
Definition partOf (f : File) : part :=
  InlineData
    (match file_dataURL f with
     | Some url => split ","%char url !! 1
     | None => None
     end)
    (file_type f).

(** A batch of photos as it should stand in a request: nothing for an
    empty batch, else its caption followed by one part per photo. *)
Definition batch (caption : string) (files : list File) : list part :=
  match files with
  | [] => []
  | _ => TextPart caption :: (partOf <$> files)
  end.

Definition journal_caption : string :=
  "Here are photos of handwritten journal entries:".
Definition space_caption : string :=
  "Here are photos of my room/workspace/environment:".

(** An answer of the endpoint that the service cannot use: a rejection, a
    response without text, a text that is not JSON, or the JSON null. *)
Definition unusable (r : reply) : bool :=
  match r with
  | Response (Some (Json JNull)) => true
  | Response (Some (Json _)) => false
  | _ => true
  end.

(** A string without a comma. *)
Fixpoint comma_free (s : string) : bool :=
  match s with
  | EmptyString => true
  | String c r => negb (Ascii.eqb c ","%char) && comma_free r
  end.

(** The list view of a well-formed list field. *)
Definition listView (v : value) : ResultView.ListView :=
  match v with
  | Val (JArr (x :: l)) => ResultView.Bullets (x :: l)
  | _ => ResultView.NotEnoughData
  end.

(** A list field that the view can show: absent, null, or an array
    whose items React accepts as children. *)
Definition showable_list (v : value) : bool :=
  match v with
  | undefined | Val JNull => true
  | Val (JArr l) => forallb ResultView.valid_child l
  | _ => false
  end.

(** A text field that the view can show: absent, or data that React
    accepts as a child. *)
Definition showable_text (v : value) : bool :=
  match v with
  | undefined => true
  | Val j => ResultView.valid_child j
  end.

(** A list field on which [ListContent] calls a [map] that is not there:
    a value that is truthy, is not an array, and has no [length] equal
    to 0. *)
Definition not_a_list (v : value) : bool :=
  match v with
  | Val (JStr s) => nonempty s
  | Val (JNum n) => negb (Z.eqb n 0)
  | Val (JBool b) => b
  | Val (JObj fields) => negb (ResultView.is_zero (lookup_field "length" fields))
  | _ => false
  end.

(** A prompts field on which the view calls a [map] that is not there:
    anything but undefined, null and an array. *)
Definition not_prompts (v : value) : bool :=
  match v with
  | undefined | Val JNull | Val (JArr _) => false
  | _ => true
  end.

(** The items of a well-formed list field. *)
Definition itemsOf (v : value) : list json :=
  match v with
  | Val (JArr l) => l
  | _ => []
  end.

(** The bounds the page keeps on what the user has entered. *)
Definition inputs_bounded (a : App.AppState) : Prop :=
  String.length (App.journalText a) <= 10000
  /\ length (App.journalPhotos a) <= 5
  /\ length (App.spacePhotos a) <= 5.

(** The bounds that hold of a recorded entry. *)
Definition entry_bounded (e : JournalEntry) : Prop :=
  String.length (text e) <= 10000
  /\ trim (text e) = text e
  /\ journalPhotoCount e <= 5
  /\ spacePhotoCount e <= 5.

Module Fixture.

Definition png (payload : string) : File :=
  {| file_name := "page.png";
     file_type := "image/png";
     file_dataURL := Some ("data:image/png;base64," +:+ payload) |}.

Definition unreadable : File :=
  {| file_name := "lost.jpg"; file_type := "image/jpeg"; file_dataURL := None |}.

Definition uploaded (f : File) : UploadedFile :=
  {| file := f; previewUrl := "blob:" +:+ file_name f |}.

Definition objectURL (f : File) : string := "blob:" +:+ file_name f.

(** A page with a text and the given photos in the two pickers. *)
Definition with_photos (t : string) (journal space : list File) : App.AppState :=
  {| App.journalText := t;
     App.journalPhotos := uploaded <$> journal;
     App.spacePhotos := uploaded <$> space;
     App.history := [];
     App.profile := null;
     App.analysisState := App.analysisState App.initialState |}.

(** A world whose endpoint rejects with an error of its own. *)
Definition env_offline : Env :=
  {| API_KEY := API_KEY Sample.env;
     endpoint := fun _ => Rejected (Error "503 Service Unavailable");
     toLocaleDateString := toLocaleDateString Sample.env;
     JSON_stringify_indented := JSON_stringify_indented Sample.env;
     randomUUID := randomUUID Sample.env;
     toISOString_now := toISOString_now Sample.env;
     getItem_throws := None;
     setItem_throws := fun _ => None |}.

Definition always (answer : bool) (question : string) : bool := answer.

Definition never_throws (key : string) : option thrown := None.

Definition v1_fresh (t : string) : V1.Browser :=
  {| V1.app := {| V1.journalText := t;
                  V1.journalPhotos := [];
                  V1.spacePhotos := [];
                  V1.analysisState := V1.analysisState V1.initialState |};
     V1.network := [] |}.

End Fixture.

(* ===================================================================== *)
(** * Properties of the file picker *)
(* ===================================================================== *)

Section FileUploadFacts.
Import FileUpload.
Variable createObjectURL : File -> string.

Lemma filter_index_past {A} (l : list A) (k t : nat) :
  t < k -> filter_index (fun index => negb (Nat.eqb index t)) k l = l.
Proof.
  revert k. induction l as [|x l IH]; intros k Hlt; [done|].
  simpl. destruct (Nat.eqb_spec k t) as [->|_]; [lia|].
  simpl. f_equal. apply IH. lia.
Qed.

Lemma filter_index_skip {A} (l : list A) (k i : nat) :
  filter_index (fun index => negb (Nat.eqb index (k + i))) k l
  = take i l ++ drop (S i) l.
Proof.
  revert k i. induction l as [|x l IH]; intros k i.
  - by destruct i.
  - destruct i as [|i]; simpl.
    + rewrite Nat.add_0_r, Nat.eqb_refl. simpl.
      rewrite drop_0. apply filter_index_past. lia.
    + destruct (Nat.eqb_spec k (k + S i)) as [E|_]; [lia|].
      simpl. f_equal.
      replace (k + S i) with (S k + i) by lia. apply IH.
Qed.

Lemma removeFile_delete (files : list UploadedFile) (i : nat) :
  fst (removeFile i files) = delete i files.
Proof.
  unfold removeFile. simpl.
  transitivity (take i files ++ drop (S i) files).
  - exact (filter_index_skip files 0 i).
  - symmetry. apply delete_take_drop.
Qed.

Lemma handleFileSelect_length files selected :
  length files <= maxFiles ->
  length (handleFileSelect createObjectURL maxFiles files selected) <= maxFiles.
Proof.
  intros Hle. destruct selected as [fs|]; simpl; [|done].
  rewrite length_take. lia.
Qed.

Lemma step_bounded files a :
  length files <= maxFiles -> length (step createObjectURL files a) <= maxFiles.
Proof.
  intros Hle. destruct a as [selected|i]; unfold step.
  - by apply handleFileSelect_length.
  - rewrite removeFile_delete.
    pose proof (sublist_length _ _ (sublist_delete files i)). lia.
Qed.

Lemma fold_step_bounded actions files :
  length files <= maxFiles ->
  length (fold_left (step createObjectURL) actions files) <= maxFiles.
Proof.
  revert files. induction actions as [|a actions IH]; intros files Hle; [done|].
  simpl. apply IH. by apply step_bounded.
Qed.

Lemma run_bounded actions : length (run createObjectURL actions) <= maxFiles.
Proof. apply fold_step_bounded. simpl. lia. Qed.

(** C10: a picker never holds more than 5 files.  In every state a
    picker can reach, selecting files appends them and keeps the first 5
    of the combined list, so the files already held stay and the excess
    of the new ones is dropped; removing a file deletes that position and
    leaves the others in their order. *)
Theorem picker_bounded_and_ordered :
  (forall actions, length (run createObjectURL actions) <= 5)
  /\ (forall actions selected,
        let files := run createObjectURL actions in
        let newFiles :=
          (fun f => {| file := f; previewUrl := createObjectURL f |}) <$> selected in
        handleFileSelect createObjectURL maxFiles files (Some selected)
        = take 5 (files ++ newFiles)
        /\ take 5 (files ++ newFiles)
           = files ++ take (5 - length files) newFiles)
  /\ (forall files i,
        fst (removeFile i files) = take i files ++ drop (S i) files
        /\ sublist (fst (removeFile i files)) files).
Proof.
  split; [exact run_bounded|]. split.
  - intros actions selected files newFiles. split; [done|].
    rewrite take_app. f_equal. apply take_ge. apply run_bounded.
  - intros files i. rewrite removeFile_delete. split.
    + apply delete_take_drop.
    + apply sublist_delete.
Qed.

End FileUploadFacts.

(* ===================================================================== *)
(** * Properties of the string functions *)
(* ===================================================================== *)

Section StringFacts.

Lemma substring_0_all (s : string) (n : nat) :
  String.length s <= n -> substring 0 n s = s.
Proof.
  revert n. induction s as [|c s IH]; intros [|n] Hle; simpl in *; try done.
  - lia.
  - f_equal. apply IH. lia.
Qed.

Lemma length_substring_0 (s : string) (n : nat) :
  n <= String.length s -> String.length (substring 0 n s) = n.
Proof.
  revert n. induction s as [|c s IH]; intros [|n] Hle; simpl in *; try done.
  - lia.
  - f_equal. apply IH. lia.
Qed.

Lemma length_replace_newlines (s : string) :
  String.length (replace_newlines s) = String.length s.
Proof. induction s as [|c s IH]; simpl; congruence. Qed.

Lemma append_cons (c : ascii) (s t : string) :
  String c s +:+ t = String c (s +:+ t).
Proof. reflexivity. Qed.

Lemma append_assoc (s t u : string) : (s +:+ t) +:+ u = s +:+ (t +:+ u).
Proof.
  induction s as [|c s IH]; [done|].
  rewrite !append_cons. by rewrite IH.
Qed.

Lemma append_nil_r (s : string) : s +:+ EmptyString = s.
Proof.
  induction s as [|c s IH]; [done|]. rewrite append_cons. by rewrite IH.
Qed.

Lemma append_frame8 (a1 a2 a3 a4 a5 a6 a7 a8 x : string) :
  a1 +:+ a2 +:+ a3 +:+ a4 +:+ a5 +:+ a6 +:+ a7 +:+ a8 +:+ x
  = (a1 +:+ a2 +:+ a3 +:+ a4 +:+ a5 +:+ a6 +:+ a7 +:+ a8) +:+ x.
Proof. by rewrite !append_assoc. Qed.

Lemma replace_newlines_app (s t : string) :
  replace_newlines (s +:+ t) = replace_newlines s +:+ replace_newlines t.
Proof.
  induction s as [|c s IH]; [done|].
  rewrite append_cons. simpl. rewrite append_cons. by rewrite IH.
Qed.

Lemma substring_0_split (s : string) (n : nat) :
  exists rest, s = substring 0 n s +:+ rest
               /\ (n < String.length s -> rest <> EmptyString).
Proof.
  revert n. induction s as [|c s IH]; intros n.
  - exists EmptyString. destruct n; simpl; split; try done; lia.
  - destruct n as [|n]; simpl.
    + exists (String c s). split; done.
    + destruct (IH n) as (rest & Heq & Hne). exists rest. split.
      * rewrite append_cons. by rewrite <- Heq.
      * intros Hlt. apply Hne. lia.
Qed.

Lemma trimStart_whitespace_only (s : string) :
  whitespace_only s = true -> trimStart s = EmptyString.
Proof.
  induction s as [|c s IH]; simpl; [done|].
  destruct (is_ws c); simpl; [exact IH|done].
Qed.

Lemma trimStart_cases (s : string) :
  trimStart s = EmptyString /\ whitespace_only s = true
  \/ exists c r, trimStart s = String c r /\ is_ws c = false
                 /\ whitespace_only s = false.
Proof.
  induction s as [|c s IH]; simpl; [by left|].
  destruct (is_ws c) eqn:E; simpl; [exact IH|].
  right. by exists c, s.
Qed.

Lemma trimEnd_keeps_head (c : ascii) (r : string) :
  is_ws c = false -> trimEnd (String c r) <> EmptyString.
Proof.
  intros Hc. simpl. rewrite Hc. by destruct (trimEnd r).
Qed.

(** [trim] gives the empty string exactly on white space. *)
Lemma trim_empty_iff (s : string) :
  trim s = EmptyString <-> whitespace_only s = true.
Proof.
  unfold trim. split.
  - intros Htrim.
    destruct (trimStart_cases s) as [[_ Hws]|(c & r & Heq & Hc & _)]; [done|].
    rewrite Heq in Htrim. by apply trimEnd_keeps_head in Htrim.
  - intros Hws. by rewrite trimStart_whitespace_only.
Qed.

Lemma nonempty_append_l (s t : string) :
  nonempty s = true -> nonempty (s +:+ t) = true.
Proof. by destruct s. Qed.

Lemma nonempty_join_cons (sep x : string) (l : list string) :
  nonempty x = true -> nonempty (join sep (x :: l)) = true.
Proof.
  intros Hx. unfold join. simpl. destruct l; [done|].
  by apply nonempty_append_l.
Qed.

Lemma prefix_app_l (x a b : string) :
  String.prefix x a = true -> String.prefix x (a +:+ b) = true.
Proof.
  revert a. induction x as [|c x IH]; intros a Hpre.
  - by destruct (a +:+ b).
  - destruct a as [|d a]; [done|].
    rewrite append_cons. cbn [String.prefix] in *.
    destruct (ascii_dec c d); [by apply IH|done].
Qed.

Lemma prefix_refl_app (x b : string) : String.prefix x (x +:+ b) = true.
Proof.
  induction x as [|c x IH]; [by destruct b|].
  rewrite append_cons. cbn [String.prefix].
  by destruct (ascii_dec c c).
Qed.

Lemma includes_unfold (x hay : string) :
  includes x hay
  = String.prefix x hay
    || match hay with
       | EmptyString => false
       | String _ r => includes x r
       end.
Proof. by destruct hay. Qed.

Lemma includes_app_l (x a b : string) :
  includes x a = true -> includes x (a +:+ b) = true.
Proof.
  induction a as [|c a IH]; intros Hin.
  - rewrite includes_unfold in Hin. rewrite orb_false_r in Hin.
    rewrite includes_unfold. apply orb_true_iff. left.
    by apply (prefix_app_l x EmptyString b).
  - rewrite includes_unfold in Hin. apply orb_true_iff in Hin.
    rewrite append_cons, includes_unfold. apply orb_true_iff.
    destruct Hin as [Hpre|Hin].
    + left. by apply (prefix_app_l x (String c a) b).
    + right. by apply IH.
Qed.

Lemma includes_app_r (x a b : string) :
  includes x b = true -> includes x (a +:+ b) = true.
Proof.
  intros Hin. induction a as [|c a IH]; [done|].
  rewrite append_cons, includes_unfold. apply orb_true_iff. by right.
Qed.

Lemma includes_refl_app (x b : string) : includes x (x +:+ b) = true.
Proof.
  rewrite includes_unfold. apply orb_true_iff. left. apply prefix_refl_app.
Qed.

(** A string that occurs in a member of a list occurs in the join. *)
Lemma includes_join (x sep : string) (l : list string) (s : string) :
  s ∈ l -> includes x s = true -> includes x (join sep l) = true.
Proof.
  intros Hel Hin. induction l as [|y l IH]; [by apply elem_of_nil in Hel|].
  unfold join in *. cbn [String.concat].
  apply elem_of_cons in Hel as [->|Hel].
  - destruct l; [done|]. by apply includes_app_l.
  - destruct l as [|z l]; [by apply elem_of_nil in Hel|].
    apply includes_app_r, includes_app_r. by apply IH.
Qed.

End StringFacts.

(* ===================================================================== *)
(** * Properties of the service call *)
(* ===================================================================== *)

Section ServiceFacts.
Import Service.
Context (env : Env).

Lemma pushFiles_spec (files : list File) (parts : list part) (sent : list request) :
  exists r, pushFiles files parts sent = (sent, r)
            /\ forall ps, r = Ret ps -> exists extra, ps = parts ++ extra.
Proof.
  revert parts. induction files as [|f files IH]; intros parts.
  - exists (Ret parts). split; [done|]. intros ps [= <-]. exists []. by rewrite app_nil_r.
  - simpl. unfold bind, fileToGenerativePart.
    destruct (file_dataURL f) as [url|]; simpl.
    + destruct (IH (parts ++ [InlineData (split "," url !! 1) (file_type f)]))
        as (r & Heq & Hr).
      exists r. split; [done|]. intros ps Hps.
      destruct (Hr ps Hps) as (extra & ->).
      eexists. by rewrite <- app_assoc.
    + eexists. split; [done|]. intros ps [=].
Qed.

Lemma buildParts_spec ctx journalText journalPhotos spacePhotos sent :
  exists r, buildParts ctx journalText journalPhotos spacePhotos sent = (sent, r)
            /\ forall ps, r = Ret ps -> exists rest, ps = TextPart ctx :: rest.
Proof.
  unfold buildParts, bind.
  set (p0 := [TextPart ctx] ++ _).
  assert (Hp0 : exists rest, p0 = TextPart ctx :: rest) by (eexists; reflexivity).
  clearbody p0.
  assert (Hfirst : forall files caption,
    exists r, (if 0 <? length files then pushFiles files (p0 ++ [TextPart caption])
               else ret p0) sent = (sent, r)
              /\ forall ps, r = Ret ps -> exists extra, ps = p0 ++ extra).
  { intros files caption. destruct (0 <? length files).
    - destruct (pushFiles_spec files (p0 ++ [TextPart caption]) sent) as (r & Heq & Hr).
      exists r. split; [done|]. intros ps Hps. destruct (Hr ps Hps) as (extra & ->).
      eexists. by rewrite <- app_assoc.
    - exists (Ret p0). split; [done|]. intros ps [= <-]. exists []. by rewrite app_nil_r. }
  destruct (Hfirst journalPhotos "Here are photos of handwritten journal entries:")
    as (r1 & Heq1 & Hr1).
  rewrite Heq1. destruct r1 as [p1|e].
  - destruct (Hr1 p1 eq_refl) as (extra1 & ->).
    destruct Hp0 as (rest0 & ->).
    destruct (0 <? length spacePhotos).
    + destruct (pushFiles_spec spacePhotos
                  (((TextPart ctx :: rest0) ++ extra1) ++
                   [TextPart "Here are photos of my room/workspace/environment:"]) sent)
        as (r & Heq & Hr).
      exists r. split; [done|]. intros ps Hps. destruct (Hr ps Hps) as (extra & ->).
      eexists. reflexivity.
    + eexists. split; [done|]. intros ps [= <-]. eexists. reflexivity.
  - eexists. split; [done|]. intros ps [=].
Qed.

Lemma buildParts_no_photos ctx journalText sent :
  buildParts ctx journalText [] [] sent
  = (sent, Ret [ TextPart ctx;
                 if nonempty (trim journalText)
                 then TextPart ("JOURNAL ENTRIES/NOTES:" +:+ nl +:+ journalText)
                 else TextPart "(No text provided for this entry)" ]).
Proof. reflexivity. Qed.

(** What the closing [try] block does, case by case. *)
Lemma requestAnalysis_cases (parts : list part) (sent : list request) :
  requestAnalysis env parts sent
  = (sent ++ [mkRequest parts],
     match endpoint env (mkRequest parts) with
     | Response (Some (Json JNull)) => Throw (Error failed_message)
     | Response (Some (Json j)) => Ret (fields_by_name j)
     | _ => Throw (Error failed_message)
     end).
Proof.
  unfold requestAnalysis, try_catch, bind, generateContent.
  destruct (endpoint env (mkRequest parts)) as [e|[[| |j]|]]; try reflexivity.
  destruct j; reflexivity.
Qed.

(** Whatever the outcome of a call, it dispatches at most one request,
    and that request starts with the context block. *)
Lemma analyzeWith_sends_context contextBlock journalText journalPhotos
    spacePhotos pastEntries previousProfile sent :
  let sent' := fst (analyzeWith env contextBlock journalText journalPhotos
                      spacePhotos pastEntries previousProfile sent) in
  sent' = sent
  \/ exists rest,
       sent' = sent ++
         [mkRequest (TextPart (contextBlock pastEntries previousProfile) :: rest)].
Proof.
  unfold analyzeWith. destruct (api_key_set env); simpl; [|by left].
  unfold bind.
  destruct (buildParts_spec (contextBlock pastEntries previousProfile)
              journalText journalPhotos spacePhotos sent) as (r & Heq & Hr).
  rewrite Heq. destruct r as [parts|e]; [|by left].
  destruct (Hr parts eq_refl) as (rest & ->).
  destruct ((String.length (trim journalText) =? 0)
            && (length journalPhotos =? 0) && (length spacePhotos =? 0));
    [by left|].
  right. exists rest. by rewrite requestAnalysis_cases.
Qed.


(** C2, as the code has it: with an empty or white-space-only text and no
    photo in either batch, the call fails before any request is
    dispatched.  The credential is checked first: the call fails with the
    no-content error when the credential is set, and with the
    missing-credential error when it is not.  This holds for both
    revisions of the service (any context block). *)
Theorem empty_content_rejected
    (contextBlock : list JournalEntry -> UserPatternProfile -> string)
    (journalText : string) (pastEntries : list JournalEntry)
    (previousProfile : UserPatternProfile) (sent : list request) :
  whitespace_only journalText = true ->
  analyzeWith env contextBlock journalText [] [] pastEntries previousProfile sent
  = (sent, Throw (Error (if api_key_set env then no_content_message
                         else missing_key_message))).
Proof.
  intros Hempty. apply trim_empty_iff in Hempty. unfold analyzeWith.
  destruct (api_key_set env); simpl; [|done].
  unfold bind. rewrite buildParts_no_photos, Hempty. reflexivity.
Qed.

(** Past the credential and content checks, the call is its closing
    [try] block on the parts that were built. *)
Lemma analyzeWith_dispatches contextBlock journalText journalPhotos spacePhotos
    pastEntries previousProfile sent parts :
  api_key_set env = true ->
  (String.length (trim journalText) =? 0)
    && (length journalPhotos =? 0) && (length spacePhotos =? 0) = false ->
  buildParts (contextBlock pastEntries previousProfile)
    journalText journalPhotos spacePhotos sent = (sent, Ret parts) ->
  analyzeWith env contextBlock journalText journalPhotos spacePhotos
    pastEntries previousProfile sent
  = requestAnalysis env parts sent.
Proof.
  intros Hkey Hcontent Hparts. unfold analyzeWith.
  rewrite Hkey. simpl. unfold bind. rewrite Hparts, Hcontent. reflexivity.
Qed.

(** C1, as the code has it: once the request is dispatched, the call
    fails, with the one generic error, exactly when the promise rejects,
    the response has no text, the text is not JSON, or it parses to
    null.  Every other parsed value is accepted: each field of the result
    is read by its name and is undefined where the response has none.  No
    presence or type check is made on the fields. *)
Theorem response_read_by_name contextBlock journalText journalPhotos spacePhotos
    pastEntries previousProfile sent parts :
  api_key_set env = true ->
  (String.length (trim journalText) =? 0)
    && (length journalPhotos =? 0) && (length spacePhotos =? 0) = false ->
  buildParts (contextBlock pastEntries previousProfile)
    journalText journalPhotos spacePhotos sent = (sent, Ret parts) ->
  analyzeWith env contextBlock journalText journalPhotos spacePhotos
    pastEntries previousProfile sent
  = (sent ++ [mkRequest parts],
     match endpoint env (mkRequest parts) with
     | Response (Some (Json JNull)) => Throw (Error failed_message)
     | Response (Some (Json j)) => Ret (fields_by_name j)
     | _ => Throw (Error failed_message)
     end).
Proof.
  intros Hkey Hcontent Hparts.
  rewrite (analyzeWith_dispatches _ _ _ _ _ _ _ _ Hkey Hcontent Hparts).
  apply requestAnalysis_cases.
Qed.

End ServiceFacts.

Lemma empty_content_rejected_witness :
  Service.analyzePatterns Sample.env "   " [] [] [] null []
  = ([], Throw (Error Service.no_content_message)).
Proof.
  exact (empty_content_rejected Sample.env (Service.signalsContext Sample.env)
           "   " [] null [] eq_refl).
Defined.

(** C2, the claim as worded, fails: the content check is not the first
    check.  Without the credential, an empty submission fails with the
    missing-credential error, not with the no-content error. *)
Lemma credential_checked_before_content :
  whitespace_only EmptyString = true
  /\ Service.analyzePatterns Sample.env_no_key EmptyString [] [] [] null []
     = ([], Throw (Error Service.missing_key_message))
  /\ Service.analyzePatterns Sample.env_no_key EmptyString [] [] [] null []
     <> ([], Throw (Error Service.no_content_message)).
Proof. split; [done|]. split; [done|]. intros [=]. Qed.

Lemma response_read_by_name_witness :
  Service.analyzePatterns Sample.env Sample.desk_text [] [] [] null []
  = ([Service.mkRequest
        [ TextPart (Service.signalsContext Sample.env [] null);
          TextPart ("JOURNAL ENTRIES/NOTES:" +:+ nl +:+ Sample.desk_text) ]],
     Ret (fields_by_name Sample.full_response)).
Proof.
  exact (response_read_by_name Sample.env (Service.signalsContext Sample.env)
           Sample.desk_text [] [] [] null [] _ eq_refl eq_refl eq_refl).
Defined.

(** C1, the claim as worded, fails: a response that lacks required fields
    is not rejected.  The call returns a result that holds the one field
    that was present and leaves the others, and the profile, undefined. *)
Lemma incomplete_response_accepted :
  conforms Service.RESPONSE_SCHEMA Sample.partial_response = false
  /\ snd (Service.analyzePatterns
            (Sample.env_answering (Some (Json Sample.partial_response)))
            "hello" [] [] [] null [])
     = Ret ({| overview := Val (JStr "Only an overview.");
               emotional_patterns := undefined;
               environment_patterns := undefined;
               behavioral_loops := undefined;
               triggers := undefined;
               recurring_themes := undefined;
               core_pursuits_and_why := undefined;
               reflection_prompts := undefined |}, undefined).
Proof. split; reflexivity. Qed.

(* ===================================================================== *)
(** * Properties of the prompt builder *)
(* ===================================================================== *)

Section PromptFacts.
Import Service.
Context (env : Env).


Lemma recent_first (h : list JournalEntry) :
  reverse (slice_last 10 h) = take 10 (reverse h).
Proof. unfold slice_last. symmetry. apply take_reverse. Qed.

Lemma recent_nonempty (h : list JournalEntry) :
  h <> [] -> exists e l, reverse (slice_last 10 h) = e :: l.
Proof.
  intros Hne.
  destruct (reverse (slice_last 10 h)) as [|e l] eqn:E; [|by eauto].
  apply (f_equal length) in E.
  rewrite length_reverse in E. unfold slice_last in E.
  rewrite length_drop in E. simpl in E.
  destruct h; [done|]. simpl in E. lia.
Qed.

Lemma historySummaryText_nonempty (h : list JournalEntry) :
  nonempty (historySummaryText h) = (0 <? length h).
Proof.
  destruct h as [|e0 h0]; [done|].
  destruct (recent_nonempty (e0 :: h0)) as (e & l & Heq); [done|].
  unfold historySummaryText. rewrite Heq. simpl.
  by apply nonempty_join_cons.
Qed.

(** The context text of the revision with pattern signals, written out
    over the ten most recent entries. *)
Lemma signalsContext_explicit (h : list JournalEntry)
    (previousProfile : UserPatternProfile) :
  signalsContext env h previousProfile
  = "PAST PATTERN SIGNALS (most recent first):" +:+ nl +:+
    (if 0 <? length h
     then join (nl +:+ nl) (imap (signalsEntry env) (take 10 (reverse h)))
     else "No past entries. This is the first one.") +:+ nl +:+ nl +:+
    "PREVIOUS PATTERN PROFILE (if any):" +:+ nl +:+
    previousProfileText env previousProfile +:+ nl +:+ nl +:+
    "CURRENT ENTRY TO ANALYZE:".
Proof.
  unfold signalsContext, pastEntriesBlock. by rewrite recent_first.
Qed.

(** The context text of the revision with summarized entries, written
    out over the ten most recent entries. *)
Lemma summaryContext_explicit (h : list JournalEntry)
    (previousProfile : UserPatternProfile) :
  summaryContext env h previousProfile
  = "PAST ENTRIES (summarized):" +:+ nl +:+
    (if 0 <? length h
     then join nl (summaryEntry <$> take 10 (reverse h))
     else "No past entries. This is the first one.") +:+ nl +:+ nl +:+
    "PREVIOUS PATTERN PROFILE (if any):" +:+ nl +:+
    previousProfileText env previousProfile +:+ nl +:+ nl +:+
    "CURRENT ENTRY TO ANALYZE:".
Proof.
  unfold summaryContext. rewrite historySummaryText_nonempty.
  unfold historySummaryText. by rewrite recent_first.
Qed.


Lemma truncated_over (bound : nat) (t : string) :
  bound < String.length t ->
  truncated bound t = slice0 bound t +:+ "..."
  /\ String.length (slice0 bound t) = bound
  /\ exists rest, rest <> EmptyString /\ t = slice0 bound t +:+ rest.
Proof.
  intros Hlt. unfold truncated, slice0.
  destruct (Nat.ltb_spec bound (String.length t)); [|lia].
  split; [done|]. split; [apply length_substring_0; lia|].
  destruct (substring_0_split t bound) as (rest & Heq & Hne).
  exists rest. split; [by apply Hne | done].
Qed.

Lemma truncated_within (bound : nat) (t : string) :
  String.length t <= bound -> truncated bound t = t.
Proof.
  intros Hle. unfold truncated.
  destruct (Nat.ltb_spec bound (String.length t)); [lia|done].
Qed.

Lemma snippet_truncated (t : string) :
  replace_newlines (slice0 400 t) +:+
    (if 400 <? String.length t then "..." else EmptyString)
  = replace_newlines (truncated 400 t).
Proof.
  unfold truncated, slice0.
  destruct (400 <? String.length t) eqn:E.
  - by rewrite replace_newlines_app.
  - apply Nat.ltb_ge in E.
    rewrite substring_0_all by done. apply append_nil_r.
Qed.

(** The rendering of an entry in the revision with pattern signals,
    around its text cut at 400. *)
Lemma signalsEntry_truncated (index : nat) (e : JournalEntry) :
  signalsEntry env index e
  = "ENTRY #" +:+ decimal (index + 1) +:+ " – [" +:+
    toLocaleDateString env (timestamp e) +:+ "]:" +:+ nl +:+
    "- Text snippet (what you wrote): " +:+ dquote +:+
    replace_newlines (truncated 400 (text e)) +:+ dquote +:+ nl +:+
    "- Pattern signals (you infer these from this entry + the previous pattern_profile):" +:+ nl +:+
    "  • Identify 1–3 recurring behaviors, emotions, avoidance patterns, coping styles, or triggers shown in this entry." +:+ nl +:+
    "  • These bullet points are high-level clues that help you detect repeating patterns across entries.".
Proof.
  unfold signalsEntry. cbv zeta.
  rewrite <- snippet_truncated.
  by rewrite (append_assoc (replace_newlines (slice0 400 (text e)))).
Qed.

(** The rendering of an entry in the revision with summarized entries,
    around its text cut at 500. *)
Lemma summaryEntry_truncated (e : JournalEntry) :
  summaryEntry e = "- [" +:+ timestamp e +:+ "] " +:+ truncated 500 (text e).
Proof.
  unfold summaryEntry, truncated, slice0.
  destruct (500 <? String.length (text e)) eqn:E; [done|].
  apply Nat.ltb_ge in E.
  rewrite substring_0_all by done. by rewrite append_nil_r.
Qed.

Lemma includes_head3 (a b c rest : string) :
  includes (a +:+ b +:+ c) (a +:+ b +:+ c +:+ rest) = true.
Proof.
  replace (a +:+ b +:+ c +:+ rest) with ((a +:+ b +:+ c) +:+ rest)
    by (by rewrite !append_assoc).
  apply includes_refl_app.
Qed.

Lemma includes_head4 (a b c d rest : string) :
  includes (a +:+ b +:+ c +:+ d) (a +:+ b +:+ c +:+ d +:+ rest) = true.
Proof.
  replace (a +:+ b +:+ c +:+ d +:+ rest) with ((a +:+ b +:+ c +:+ d) +:+ rest)
    by (by rewrite !append_assoc).
  apply includes_refl_app.
Qed.

Lemma includes_refl (x : string) : includes x x = true.
Proof.
  rewrite <- (append_nil_r x) at 2. apply includes_refl_app.
Qed.

Lemma recent_lookup_nonempty (h : list JournalEntry) (i : nat) (e : JournalEntry) :
  take 10 (reverse h) !! i = Some e -> (0 <? length h) = true.
Proof.
  intros Hi. destruct h; [|done].
  by rewrite reverse_nil, take_nil in Hi.
Qed.

(** What occurs in the rendering of a selected entry occurs in the context
    text, in both revisions. *)
Lemma signalsContext_includes (h : list JournalEntry)
    (previousProfile : UserPatternProfile) (i : nat) (e : JournalEntry)
    (x : string) :
  take 10 (reverse h) !! i = Some e ->
  includes x (signalsEntry env i e) = true ->
  includes x (signalsContext env h previousProfile) = true.
Proof.
  intros Hi Hin. rewrite signalsContext_explicit.
  rewrite (recent_lookup_nonempty h i e Hi).
  apply includes_app_r, includes_app_r, includes_app_l.
  apply (includes_join _ _ _ (signalsEntry env i e)); [|done].
  apply (list_elem_of_lookup_2 _ i).
  by rewrite list_lookup_imap, Hi.
Qed.

Lemma summaryContext_includes (h : list JournalEntry)
    (previousProfile : UserPatternProfile) (i : nat) (e : JournalEntry)
    (x : string) :
  take 10 (reverse h) !! i = Some e ->
  includes x (summaryEntry e) = true ->
  includes x (summaryContext env h previousProfile) = true.
Proof.
  intros Hi Hin. rewrite summaryContext_explicit.
  rewrite (recent_lookup_nonempty h i e Hi).
  apply includes_app_r, includes_app_r, includes_app_l.
  apply (includes_join _ _ _ (summaryEntry e)); [|done].
  apply list_elem_of_fmap_2. by apply (list_elem_of_lookup_2 _ i).
Qed.

(** The renderings of the selected entries depend on the entries through
    their timestamps and their texts cut at the bound only. *)
Lemma signalsEntries_cut (h h' : list JournalEntry) :
  (fun e => (timestamp e, truncated 400 (text e))) <$> h
  = (fun e => (timestamp e, truncated 400 (text e))) <$> h' ->
  imap (signalsEntry env) (take 10 (reverse h))
  = imap (signalsEntry env) (take 10 (reverse h')).
Proof.
  intros Heq.
  set (key := fun e => (timestamp e, truncated 400 (text e))) in *.
  set (g := fun (i : nat) (k : string * string) =>
     "ENTRY #" +:+ decimal (i + 1) +:+ " – [" +:+
     toLocaleDateString env (fst k) +:+ "]:" +:+ nl +:+
     "- Text snippet (what you wrote): " +:+ dquote +:+
     replace_newlines (snd k) +:+ dquote +:+ nl +:+
     "- Pattern signals (you infer these from this entry + the previous pattern_profile):" +:+ nl +:+
     "  • Identify 1–3 recurring behaviors, emotions, avoidance patterns, coping styles, or triggers shown in this entry." +:+ nl +:+
     "  • These bullet points are high-level clues that help you detect repeating patterns across entries.").
  assert (Hg : forall l : list JournalEntry,
            imap (signalsEntry env) l = imap g (key <$> l)).
  { intros l. rewrite imap_fmap. apply imap_ext. intros i e _.
    apply signalsEntry_truncated. }
  rewrite !Hg, !fmap_take, !fmap_reverse. by rewrite Heq.
Qed.

Lemma summaryEntries_cut (h h' : list JournalEntry) :
  (fun e => (timestamp e, truncated 500 (text e))) <$> h
  = (fun e => (timestamp e, truncated 500 (text e))) <$> h' ->
  summaryEntry <$> take 10 (reverse h) = summaryEntry <$> take 10 (reverse h').
Proof.
  intros Heq.
  set (key := fun e => (timestamp e, truncated 500 (text e))) in *.
  set (g := fun k : string * string => "- [" +:+ fst k +:+ "] " +:+ snd k).
  assert (Hg : forall l : list JournalEntry,
            summaryEntry <$> l = g <$> (key <$> l)).
  { intros l. rewrite <- list_fmap_compose. apply list_fmap_ext.
    intros i e _. apply summaryEntry_truncated. }
  rewrite !Hg, !fmap_take, !fmap_reverse. by rewrite Heq.
Qed.

(** C6, as the code has it.  The context text of a request renders each
    selected entry around its text cut at the bound, and nothing else of
    the entry's text enters it: the text itself when it fits, else its
    first [bound] code units followed by an ellipsis, so that a non-empty
    rest is left out.  For a selected entry over the bound the context
    text contains the cut text with the ellipsis; for one within the bound
    it contains the text with no ellipsis after it.  Two histories whose
    entries agree on timestamps and on texts cut at the bound give the
    same context text.  The bound is 500 in the revision with summarized
    entries; it is 400 in the revision with pattern signals, which also
    turns every line feed of what it renders into a space (a carriage
    return is left as it is). *)
Theorem entry_truncation (h : list JournalEntry)
    (previousProfile : UserPatternProfile) :
  let recent := take 10 (reverse h) in
  signalsContext env h previousProfile
    = "PAST PATTERN SIGNALS (most recent first):" +:+ nl +:+
      (if 0 <? length h
       then join (nl +:+ nl)
              (imap (fun index e =>
                 "ENTRY #" +:+ decimal (index + 1) +:+ " – [" +:+
                 toLocaleDateString env (timestamp e) +:+ "]:" +:+ nl +:+
                 "- Text snippet (what you wrote): " +:+ dquote +:+
                 replace_newlines (truncated 400 (text e)) +:+ dquote +:+ nl +:+
                 "- Pattern signals (you infer these from this entry + the previous pattern_profile):" +:+ nl +:+
                 "  • Identify 1–3 recurring behaviors, emotions, avoidance patterns, coping styles, or triggers shown in this entry." +:+ nl +:+
                 "  • These bullet points are high-level clues that help you detect repeating patterns across entries.")
                 recent)
       else "No past entries. This is the first one.") +:+ nl +:+ nl +:+
      "PREVIOUS PATTERN PROFILE (if any):" +:+ nl +:+
      previousProfileText env previousProfile +:+ nl +:+ nl +:+
      "CURRENT ENTRY TO ANALYZE:"
  /\ summaryContext env h previousProfile
    = "PAST ENTRIES (summarized):" +:+ nl +:+
      (if 0 <? length h
       then join nl
              ((fun e => "- [" +:+ timestamp e +:+ "] " +:+
                         truncated 500 (text e)) <$> recent)
       else "No past entries. This is the first one.") +:+ nl +:+ nl +:+
      "PREVIOUS PATTERN PROFILE (if any):" +:+ nl +:+
      previousProfileText env previousProfile +:+ nl +:+ nl +:+
      "CURRENT ENTRY TO ANALYZE:"
  /\ (forall i e, recent !! i = Some e ->
        400 < String.length (text e) ->
        includes
          (dquote +:+ replace_newlines (slice0 400 (text e)) +:+ "..." +:+ dquote)
          (signalsContext env h previousProfile) = true)
  /\ (forall i e, recent !! i = Some e ->
        String.length (text e) <= 400 ->
        includes (dquote +:+ replace_newlines (text e) +:+ dquote)
          (signalsContext env h previousProfile) = true)
  /\ (forall i e, recent !! i = Some e ->
        500 < String.length (text e) ->
        includes
          ("- [" +:+ timestamp e +:+ "] " +:+ slice0 500 (text e) +:+ "...")
          (summaryContext env h previousProfile) = true)
  /\ (forall i e, recent !! i = Some e ->
        String.length (text e) <= 500 ->
        includes ("- [" +:+ timestamp e +:+ "] " +:+ text e)
          (summaryContext env h previousProfile) = true)
  /\ (forall h',
        (fun e => (timestamp e, truncated 400 (text e))) <$> h
        = (fun e => (timestamp e, truncated 400 (text e))) <$> h' ->
        signalsContext env h previousProfile
        = signalsContext env h' previousProfile)
  /\ (forall h',
        (fun e => (timestamp e, truncated 500 (text e))) <$> h
        = (fun e => (timestamp e, truncated 500 (text e))) <$> h' ->
        summaryContext env h previousProfile
        = summaryContext env h' previousProfile)
  /\ (forall bound t, bound < String.length t ->
        truncated bound t = slice0 bound t +:+ "..."
        /\ String.length (slice0 bound t) = bound
        /\ exists rest, rest <> EmptyString /\ t = slice0 bound t +:+ rest)
  /\ (forall bound t, String.length t <= bound -> truncated bound t = t).
Proof.
  intros recent. subst recent.
  split; [|split; [|split; [|split; [|split; [|split;
    [|split; [|split; [|split]]]]]]]].
  - rewrite signalsContext_explicit.
    destruct (0 <? length h); [|done].
    do 4 f_equal. apply imap_ext. intros i e _.
    apply signalsEntry_truncated.
  - rewrite summaryContext_explicit.
    destruct (0 <? length h); [|done].
    do 4 f_equal. apply list_fmap_ext. intros i e _.
    apply summaryEntry_truncated.
  - intros i e Hi Hlen.
    apply (signalsContext_includes h previousProfile i e _ Hi).
    unfold signalsEntry. cbv zeta.
    destruct (Nat.ltb_spec 400 (String.length (text e))); [|lia].
    do 7 apply includes_app_r. apply includes_head4.
  - intros i e Hi Hlen.
    apply (signalsContext_includes h previousProfile i e _ Hi).
    unfold signalsEntry. cbv zeta.
    destruct (Nat.ltb_spec 400 (String.length (text e))); [lia|].
    unfold slice0. rewrite substring_0_all by done.
    do 7 apply includes_app_r.
    change (EmptyString +:+ ?y) with y.
    apply includes_head3.
  - intros i e Hi Hlen.
    apply (summaryContext_includes h previousProfile i e _ Hi).
    unfold summaryEntry.
    destruct (Nat.ltb_spec 500 (String.length (text e))); [|lia].
    apply includes_refl.
  - intros i e Hi Hlen.
    apply (summaryContext_includes h previousProfile i e _ Hi).
    rewrite summaryEntry_truncated, truncated_within by done.
    apply includes_refl.
  - intros h' Heq. rewrite !signalsContext_explicit.
    rewrite (signalsEntries_cut h h' Heq).
    apply (f_equal length) in Heq. rewrite !length_fmap in Heq.
    by rewrite Heq.
  - intros h' Heq. rewrite !summaryContext_explicit.
    rewrite (summaryEntries_cut h h' Heq).
    apply (f_equal length) in Heq. rewrite !length_fmap in Heq.
    by rewrite Heq.
  - apply truncated_over.
  - apply truncated_within.
Qed.

End PromptFacts.

(** C6, the claim as worded, fails in the revision with pattern signals.
    The text of this entry has a line feed after its first code unit and
    is over the bound; it is a text the editor records as it is.  Its
    first 400 code units followed by the ellipsis do not occur in the
    context text of the request, where the line feed has become a space. *)
Lemma truncation_rewrites_line_feeds :
  trim (text Sample.broken_line_entry) = text Sample.broken_line_entry
  /\ 400 < String.length (text Sample.broken_line_entry)
  /\ includes (slice0 400 (text Sample.broken_line_entry) +:+ "...")
       (Service.signalsContext Sample.env [Sample.broken_line_entry] null)
     = false
  /\ includes
       (replace_newlines (slice0 400 (text Sample.broken_line_entry)) +:+ "...")
       (Service.signalsContext Sample.env [Sample.broken_line_entry] null)
     = true.
Proof. vm_compute. split; [done|]. split; [lia|]. split; reflexivity. Qed.


Lemma entry_truncation_witness :
  includes
    (dquote +:+
     replace_newlines (slice0 400 (text Sample.broken_line_entry)) +:+
     "..." +:+ dquote)
    (Service.signalsContext Sample.env Sample.two_entries null) = true
  /\ includes
       ("- [" +:+ timestamp Sample.broken_line_entry +:+ "] " +:+
        text Sample.broken_line_entry)
       (Service.summaryContext Sample.env Sample.two_entries null) = true
  /\ includes (dquote +:+ Sample.desk_text +:+ dquote)
       (Service.signalsContext Sample.env Sample.two_entries null) = true
  /\ Service.signalsContext Sample.env Sample.two_entries null
     = Service.signalsContext Sample.env
         [Sample.entry 0 Sample.desk_text;
          Sample.entry 1 (slice0 400 (text Sample.broken_line_entry) +:+ "cut")]
         null.
Proof.
  pose proof (entry_truncation Sample.env Sample.two_entries null) as H.
  cbv zeta in H.
  destruct H as (_ & _ & Hover & Hwithin & _ & Hwithin' & Hcut & _).
  split; [|split; [|split]].
  - apply (Hover 0); [reflexivity | vm_compute; lia].
  - apply (Hwithin' 0); [reflexivity | vm_compute; lia].
  - apply (Hwithin 1 (Sample.entry 0 Sample.desk_text));
      [reflexivity | vm_compute; lia].
  - apply Hcut. vm_compute. reflexivity.
Defined.

(* ===================================================================== *)
(** * Properties of the orchestrator *)
(* ===================================================================== *)

Section AppFacts.
Import App.
Context (env : Env).
Variable analyzePatterns :
  string -> list File -> list File -> list JournalEntry ->
  UserPatternProfile -> M (list request) (AnalysisResult * UserPatternProfile).

(** Runs the handler up to the outcome [Hcall] of its service call. *)
Ltac run_cycle Hcall :=
  unfold handleAnalyze, bind, try_catch, await, setAnalysisState, setHistory,
    setProfile, setItem_history, setItem_profile, setItem, modify, with_app;
  simpl; rewrite Hcall; simpl.

(** A cycle in which the service throws: only the analysis state and the
    log of requests change. *)
Lemma handleAnalyze_service_failure (a : AppState) (b : Browser) sent' e :
  serviceCall analyzePatterns a (network b) = (sent', Throw e) ->
  let b' := fst (handleAnalyze env analyzePatterns a b) in
  history (app b') = history (app b)
  /\ profile (app b') = profile (app b)
  /\ localStorage b' = localStorage b
  /\ network b' = sent'
  /\ analysisState (app b') = failedWith e.
Proof.
  unfold serviceCall. intros Hcall. run_cycle Hcall. done.
Qed.

(** A cycle in which the service returns: history and profile are set,
    and the two writes to storage decide how the cycle ends. *)
Lemma handleAnalyze_service_success (a : AppState) (b : Browser) sent' analysis pp :
  serviceCall analyzePatterns a (network b) = (sent', Ret (analysis, pp)) ->
  let b' := fst (handleAnalyze env analyzePatterns a b) in
  let updatedHistory := history a ++ [newEntry env a] in
  history (app b') = updatedHistory
  /\ profile (app b') = pp
  /\ network b' = sent'
  /\ match setItem_throws env "patternMirrorHistory",
           setItem_throws env "patternMirrorProfile" with
     | None, None =>
         analysisState (app b')
         = {| isLoading := false; error := None; result := Some analysis |}
         /\ localStorage b'
            = {| patternMirrorHistory := Some (Json updatedHistory);
                 patternMirrorProfile := Some (stringify_profile pp) |}
     | None, Some e =>
         analysisState (app b') = failedWith e
         /\ localStorage b'
            = {| patternMirrorHistory := Some (Json updatedHistory);
                 patternMirrorProfile := patternMirrorProfile (localStorage b) |}
     | Some e, _ =>
         analysisState (app b') = failedWith e
         /\ localStorage b' = localStorage b
     end.
Proof.
  unfold serviceCall. intros Hcall. run_cycle Hcall.
  destruct (setItem_throws env "patternMirrorHistory") as [e1|]; simpl; [done|].
  destruct (setItem_throws env "patternMirrorProfile") as [e2|]; simpl; done.
Qed.

(** A cycle that ends with a result is one in which the service returned
    and both writes went through. *)
Lemma click_succeeded_inv (b : Browser) :
  let b' := click env analyzePatterns b in
  result (analysisState (app b')) <> None ->
  exists analysis pp,
    serviceCall analyzePatterns (app b) (network b)
    = (network b', Ret (analysis, pp))
    /\ history (app b') = history (app b) ++ [newEntry env (app b)]
    /\ profile (app b') = pp
    /\ analysisState (app b')
       = {| isLoading := false; error := None; result := Some analysis |}
    /\ localStorage b'
       = {| patternMirrorHistory :=
              Some (Json (history (app b) ++ [newEntry env (app b)]));
            patternMirrorProfile := Some (stringify_profile pp) |}.
Proof.
  intros b'. subst b'. unfold click.
  destruct (serviceCall analyzePatterns (app b) (network b)) as [sent' [[analysis pp]|e]] eqn:Hcall.
  - pose proof (handleAnalyze_service_success (app b) b sent' analysis pp Hcall)
      as (Hh & Hp & Hn & Hst).
    cbv zeta in *. intros Hres.
    destruct (setItem_throws env "patternMirrorHistory") as [e1|].
    { destruct Hst as [Hst _]. rewrite Hst in Hres. by destruct Hres. }
    destruct (setItem_throws env "patternMirrorProfile") as [e2|].
    { destruct Hst as [Hst _]. rewrite Hst in Hres. by destruct Hres. }
    destruct Hst as [Hst Hls].
    exists analysis, pp. rewrite Hn. done.
  - pose proof (handleAnalyze_service_failure (app b) b sent' e Hcall)
      as (_ & _ & _ & _ & Hst).
    cbv zeta in *. intros Hres. rewrite Hst in Hres. by destruct Hres.
Qed.

(** C9, as the code has it: the entry recorded by a cycle that ends
    with a result holds the submitted text with the white space at its
    two ends removed; it is the submitted text itself when that text has
    no such white space.  On an empty history the new history is that one
    entry. *)
Theorem recorded_text_is_trimmed (b : Browser) :
  let b' := click env analyzePatterns b in
  result (analysisState (app b')) <> None ->
  exists e,
    history (app b') = history (app b) ++ [e]
    /\ text e = trim (journalText (app b))
    /\ (trim (journalText (app b)) = journalText (app b) ->
        text e = journalText (app b))
    /\ (history (app b) = [] -> history (app b') = [e]).
Proof.
  intros b' Hres.
  destruct (click_succeeded_inv b Hres) as (analysis & pp & _ & Hh & _).
  exists (newEntry env (app b)). fold b' in Hh.
  split; [done|]. split; [done|]. split.
  - intros Hfix. simpl. done.
  - intros Hnil. rewrite Hh, Hnil. done.
Qed.

(** C7, as the code has it: loading never throws and leaves the storage
    and the network alone.  When the stored history does not parse, or
    the storage cannot be read, nothing is loaded: history and profile
    stay as they were (empty and absent on mount).  When the stored
    profile does not parse, the profile stays as it was.  A stored
    history that parses is loaded, whatever the stored profile is; a
    stored profile that parses is loaded unless the stored history did
    not parse. *)
Theorem load_never_raises (b : Browser) :
  let b' := fst (load env b) in
  snd (load env b) = Ret tt
  /\ network b' = network b
  /\ localStorage b' = localStorage b
  /\ (patternMirrorHistory (localStorage b) = Some Malformed -> app b' = app b)
  /\ (getItem_throws env <> None -> app b' = app b)
  /\ (patternMirrorProfile (localStorage b) = Some Malformed ->
      profile (app b') = profile (app b))
  /\ (forall h, getItem_throws env = None ->
        patternMirrorHistory (localStorage b) = Some (Json h) ->
        history (app b') = h)
  /\ (forall p, getItem_throws env = None ->
        patternMirrorHistory (localStorage b) <> Some Malformed ->
        patternMirrorProfile (localStorage b) = Some (Json p) ->
        profile (app b') = Val p).
Proof.
  unfold load, try_catch, bind, getItem, setHistory, setProfile, modify,
    with_app, JSON_parse, ret, throw.
  destruct b as [a sent [sh sp]]. simpl.
  destruct (getItem_throws env) as [e|]; simpl.
  { repeat split; try done. }
  destruct sh as [[| |h]|], sp as [[| |p]|]; simpl;
    repeat split; try done; intros; congruence.
Qed.

End AppFacts.

Section CycleFacts.
Import App Service.
Context (env : Env).
Variable contextBlock : list JournalEntry -> UserPatternProfile -> string.

(** A call of the service that returns has dispatched one request, which
    starts with the context block, and returns the fields of the parsed
    answer read by name. *)
Lemma analyzeWith_ret_inv journalText journalPhotos spacePhotos pastEntries
    previousProfile sent sent' analysis pp :
  analyzeWith env contextBlock journalText journalPhotos spacePhotos
    pastEntries previousProfile sent = (sent', Ret (analysis, pp)) ->
  exists rest j,
    let req := mkRequest (TextPart (contextBlock pastEntries previousProfile) :: rest) in
    sent' = sent ++ [req]
    /\ endpoint env req = Response (Some (Json j))
    /\ (analysis, pp) = fields_by_name j.
Proof.
  unfold analyzeWith. destruct (api_key_set env); simpl; [|intros [=]].
  unfold bind.
  destruct (buildParts_spec (contextBlock pastEntries previousProfile)
              journalText journalPhotos spacePhotos sent) as (r & Heq & Hr).
  rewrite Heq. destruct r as [parts|e]; [|intros [=]].
  destruct (Hr parts eq_refl) as (rest & ->).
  destruct ((String.length (trim journalText) =? 0)
            && (length journalPhotos =? 0) && (length spacePhotos =? 0));
    [intros [=]|].
  rewrite requestAnalysis_cases. intros [= <- Hres].
  exists rest.
  destruct (endpoint env _) as [e|[[| |j]|]]; try discriminate.
  exists j. cbv zeta. split; [done|]. split; [done|].
  destruct j; try discriminate; congruence.
Qed.

(** C3: a cycle that ends with a result appends to the history exactly
    one entry, last, built from the generated identifier, the current
    time and the inputs of the cycle (the trimmed text and the two photo
    counts); it replaces the profile by the [pattern_profile] of the
    parsed answer of the one request it sent, whatever the profile was;
    and it stores both. *)
Theorem successful_cycle (b : Browser) :
  let b' := click env (analyzeWith env contextBlock) b in
  result (analysisState (app b')) <> None ->
  history (app b')
  = history (app b) ++
    [ {| id := randomUUID env;
         timestamp := toISOString_now env;
         text := trim (journalText (app b));
         journalPhotoCount := length (journalPhotos (app b));
         spacePhotoCount := length (spacePhotos (app b)) |} ]
  /\ length (history (app b')) = S (length (history (app b)))
  /\ (exists rest j,
        let req :=
          mkRequest
            (TextPart (contextBlock (history (app b)) (profile (app b))) :: rest) in
        network b' = network b ++ [req]
        /\ endpoint env req = Response (Some (Json j))
        /\ profile (app b') = field_of j "pattern_profile"
        /\ result (analysisState (app b')) = Some (fst (fields_by_name j)))
  /\ localStorage b'
     = {| patternMirrorHistory := Some (Json (history (app b')));
          patternMirrorProfile := Some (stringify_profile (profile (app b'))) |}.
Proof.
  intros b' Hres.
  destruct (click_succeeded_inv env _ b Hres)
    as (analysis & pp & Hcall & Hh & Hp & Hst & Hls).
  fold b' in Hcall, Hh, Hp, Hst, Hls.
  unfold serviceCall in Hcall.
  destruct (analyzeWith_ret_inv _ _ _ _ _ _ _ _ _ Hcall)
    as (rest & j & Hsent & Hend & Hfields).
  split; [exact Hh|]. split.
  { rewrite Hh, length_app. simpl. lia. }
  split.
  - exists rest, j. cbv zeta. split; [done|]. split; [done|].
    rewrite Hp, Hst. cbn [result].
    change (field_of j "pattern_profile") with (snd (fields_by_name j)).
    rewrite <- Hfields. done.
  - rewrite Hls, Hh, Hp. done.
Qed.

End CycleFacts.

Section Scenarios.
Import App.

Lemma successful_cycle_witness :
  let b' := click Sample.env (Service.analyzePatterns Sample.env)
              (Sample.fresh (Sample.typed Sample.desk_text)) in
  history (app b')
  = [ {| id := randomUUID Sample.env;
         timestamp := toISOString_now Sample.env;
         text := Sample.desk_text;
         journalPhotoCount := 0;
         spacePhotoCount := 0 |} ]
  /\ length (history (app b')) = 1.
Proof.
  assert (H : result (analysisState (app
            (click Sample.env (Service.analyzePatterns Sample.env)
               (Sample.fresh (Sample.typed Sample.desk_text))))) <> None)
    by (vm_compute; discriminate).
  destruct (successful_cycle Sample.env (Service.signalsContext Sample.env)
              (Sample.fresh (Sample.typed Sample.desk_text)) H)
    as (Hh & Hlen & _).
  split; [exact Hh | exact Hlen].
Defined.

Lemma recorded_text_is_trimmed_witness :
  exists e,
    history (app (click Sample.env (Service.analyzePatterns Sample.env)
                    (Sample.fresh (Sample.typed Sample.desk_text)))) = [e]
    /\ text e = Sample.desk_text.
Proof.
  assert (H : result (analysisState (app
            (click Sample.env (Service.analyzePatterns Sample.env)
               (Sample.fresh (Sample.typed Sample.desk_text))))) <> None)
    by (vm_compute; discriminate).
  destruct (recorded_text_is_trimmed Sample.env
              (Service.analyzePatterns Sample.env)
              (Sample.fresh (Sample.typed Sample.desk_text)) H)
    as (e & _ & _ & Hfix & Hnil).
  exists e. split; [apply Hnil; reflexivity | apply Hfix; reflexivity].
Defined.

(** C9, the claim as worded, fails: a text submitted with white space at
    its ends is not recorded as submitted. *)
Lemma padded_text_not_verbatim :
  let b' := click Sample.env (Service.analyzePatterns Sample.env)
              (Sample.fresh (Sample.typed "  padded  ")) in
  result (analysisState (app b')) <> None
  /\ text <$> history (app b') = ["padded"]
  /\ text <$> history (app b') <> ["  padded  "].
Proof. vm_compute. split; [discriminate|]. split; [reflexivity|discriminate]. Qed.

Lemma load_never_raises_witness :
  snd (load Sample.env (Sample.mounted Sample.corrupt_history)) = Ret tt
  /\ app (fst (load Sample.env (Sample.mounted Sample.corrupt_history)))
     = initialState
  /\ profile (app (fst (load Sample.env (Sample.mounted Sample.half_corrupt))))
     = null.
Proof.
  destruct (load_never_raises Sample.env (Sample.mounted Sample.corrupt_history))
    as (Hret & _ & _ & Hhist & _ & _).
  destruct (load_never_raises Sample.env (Sample.mounted Sample.half_corrupt))
    as (_ & _ & _ & _ & _ & Hprof & _).
  split; [exact Hret|]. split; [apply Hhist; reflexivity|apply Hprof; reflexivity].
Defined.

(** C7, the claim as worded, fails: when the stored profile does not
    parse but the stored history does, loading keeps the history it has
    read; the pair is not reset together. *)
Lemma corrupt_profile_keeps_history :
  let b' := fst (load Sample.env (Sample.mounted Sample.half_corrupt)) in
  history (app b') = [Sample.entry 1 "kept"]
  /\ history (app b') <> []
  /\ profile (app b') = null.
Proof. vm_compute. split; [reflexivity|]. split; [discriminate|reflexivity]. Qed.

(** C4 on the failing input: the model answers well and the storage
    refuses the write.  The cycle ends with an error and no result, yet
    the history has the new entry and the profile is the new one.  When
    only the second write is refused, the stored history has changed as
    well, next to a stored profile that has not. *)
Theorem failed_cycle_keeps_new_state :
  let b := Sample.fresh (Sample.typed Sample.desk_text) in
  let b' := click Sample.env_storage_full
              (Service.analyzePatterns Sample.env_storage_full) b in
  let b'' := click Sample.env_storage_nearly_full
               (Service.analyzePatterns Sample.env_storage_nearly_full) b in
  (error (analysisState (app b')) = Some "The quota has been exceeded."
   /\ result (analysisState (app b')) = None
   /\ history (app b) = []
   /\ length (history (app b')) = 1
   /\ profile (app b) = null
   /\ profile (app b') = field_of Sample.full_response "pattern_profile"
   /\ localStorage b' = localStorage b)
  /\ (error (analysisState (app b'')) = Some "The quota has been exceeded."
      /\ result (analysisState (app b'')) = None
      /\ length (history (app b'')) = 1
      /\ patternMirrorHistory (localStorage b) = None
      /\ patternMirrorHistory (localStorage b'') = Some (Json (history (app b'')))
      /\ patternMirrorProfile (localStorage b'') = None).
Proof. vm_compute. repeat split; reflexivity. Qed.

(** C8 on the failing input: the service returns the analysis, the write
    to storage throws, and the cycle ends without the result: the catch
    clause replaces it by the error of the write. *)
Theorem save_failure_hides_result :
  let b := Sample.fresh (Sample.typed Sample.desk_text) in
  let b' := click Sample.env_storage_full
              (Service.analyzePatterns Sample.env_storage_full) b in
  snd (serviceCall (Service.analyzePatterns Sample.env_storage_full)
         (app b) (network b))
  = Ret (fields_by_name Sample.full_response)
  /\ analysisState (app b')
     = {| isLoading := false;
          error := Some "The quota has been exceeded.";
          result := None |}.
Proof. vm_compute. split; reflexivity. Qed.

End Scenarios.

(* ===================================================================== *)
(** * More properties of the service call *)
(* ===================================================================== *)

Section ServiceMore.
Import Service.
Context (env : Env).

Lemma pushFiles_readable (files : list File) (parts : list part)
    (sent : list request) :
  forallb readable files = true ->
  pushFiles files parts sent = (sent, Ret (parts ++ (partOf <$> files))).
Proof.
  revert parts. induction files as [|f files IH]; intros parts Hall; simpl in *.
  - by rewrite app_nil_r.
  - apply andb_true_iff in Hall as [Hf Hall].
    unfold bind, fileToGenerativePart, readable, partOf in *.
    destruct (file_dataURL f) as [url|]; [|done]. simpl.
    rewrite (IH _ Hall). by rewrite <- app_assoc.
Qed.

Lemma pushFiles_unreadable (files : list File) (parts : list part)
    (sent : list request) :
  forallb readable files = false ->
  pushFiles files parts sent = (sent, Throw (Thrown None)).
Proof.
  revert parts. induction files as [|f files IH]; intros parts Hsome; simpl in *.
  - done.
  - unfold bind, fileToGenerativePart, readable in *.
    destruct (file_dataURL f) as [url|]; [|done]. simpl in *.
    by apply IH.
Qed.

Lemma batch_push (caption : string) (files : list File) (parts : list part)
    (sent : list request) :
  forallb readable files = true ->
  (if 0 <? length files
   then pushFiles files (parts ++ [TextPart caption])
   else ret parts) sent
  = (sent, Ret (parts ++ batch caption files)).
Proof.
  intros Hall. destruct files as [|f files].
  - simpl. by rewrite app_nil_r.
  - change (0 <? length (f :: files)) with true. cbv iota.
    rewrite pushFiles_readable by done.
    by rewrite <- app_assoc.
Qed.

Lemma batch_push_unreadable (caption : string) (files : list File)
    (parts : list part) (sent : list request) :
  forallb readable files = false ->
  (if 0 <? length files
   then pushFiles files (parts ++ [TextPart caption])
   else ret parts) sent
  = (sent, Throw (Thrown None)).
Proof.
  intros Hsome. destruct files as [|f files]; [done|].
  change (0 <? length (f :: files)) with true. cbv iota.
  by apply pushFiles_unreadable.
Qed.

Lemma buildParts_readable (contextBlock journalText : string)
    (journalPhotos spacePhotos : list File) (sent : list request) :
  forallb readable (journalPhotos ++ spacePhotos) = true ->
  buildParts contextBlock journalText journalPhotos spacePhotos sent
  = (sent,
     Ret ([ TextPart contextBlock;
            if nonempty (trim journalText)
            then TextPart ("JOURNAL ENTRIES/NOTES:" +:+ nl +:+ journalText)
            else TextPart "(No text provided for this entry)" ]
          ++ batch journal_caption journalPhotos
          ++ batch space_caption spacePhotos)).
Proof.
  intros Hall. rewrite forallb_app in Hall.
  apply andb_true_iff in Hall as [Hj Hs].
  unfold buildParts, bind.
  rewrite (batch_push journal_caption journalPhotos _ sent Hj).
  rewrite (batch_push space_caption spacePhotos _ sent Hs).
  by rewrite <- app_assoc.
Qed.

(** X1: when every photo can be read, the parts of the request are, in
    this order: the context block, the journal text (or the note that
    there is none), then each non-empty batch as its caption followed by
    one image part per photo in the order of selection, the handwriting
    batch before the room batch.  Building them sends nothing. *)
Theorem parts_layout (contextBlock journalText : string)
    (journalPhotos spacePhotos : list File) (sent : list request) :
  forallb readable (journalPhotos ++ spacePhotos) = true ->
  buildParts contextBlock journalText journalPhotos spacePhotos sent
  = (sent,
     Ret ([ TextPart contextBlock;
            if nonempty (trim journalText)
            then TextPart ("JOURNAL ENTRIES/NOTES:" +:+ nl +:+ journalText)
            else TextPart "(No text provided for this entry)" ]
          ++ batch journal_caption journalPhotos
          ++ batch space_caption spacePhotos)).
Proof. apply buildParts_readable. Qed.

Lemma buildParts_unreadable (contextBlock journalText : string)
    (journalPhotos spacePhotos : list File) (sent : list request) :
  forallb readable (journalPhotos ++ spacePhotos) = false ->
  buildParts contextBlock journalText journalPhotos spacePhotos sent
  = (sent, Throw (Thrown None)).
Proof.
  intros Hsome. rewrite forallb_app in Hsome.
  unfold buildParts, bind.
  destruct (forallb readable journalPhotos) eqn:Hj.
  - simpl in Hsome.
    rewrite (batch_push journal_caption journalPhotos _ sent Hj).
    by rewrite (batch_push_unreadable space_caption spacePhotos _ sent Hsome).
  - by rewrite (batch_push_unreadable journal_caption journalPhotos _ sent Hj).
Qed.

Lemma split_comma_free (s : string) :
  comma_free s = true -> split ","%char s = [s].
Proof.
  induction s as [|c s IH]; simpl; [done|].
  destruct (Ascii.eqb c ","%char); simpl; [done|].
  intros Hs. by rewrite (IH Hs).
Qed.

Lemma split_at_first_comma (header rest : string) :
  comma_free header = true ->
  split ","%char (header +:+ String ","%char rest)
  = header :: split ","%char rest.
Proof.
  induction header as [|c header IH]; intros Hfree.
  - reflexivity.
  - rewrite append_cons. simpl in *.
    destruct (Ascii.eqb c ","%char); simpl in *; [done|].
    by rewrite (IH Hfree).
Qed.

(** X2: from a data URL of the usual form, a header without a comma, a
    comma, and a payload without a comma, the image part carries exactly
    the payload, with the MIME type of the file.  When the URL has no
    comma at all, the part carries no data.  When the file cannot be
    read, the call throws an object without a message. *)
Theorem data_url_payload {S} (f : File) (s : S) :
  (forall header payload,
      file_dataURL f = Some (header +:+ "," +:+ payload) ->
      comma_free header = true -> comma_free payload = true ->
      fileToGenerativePart f s
      = (s, Ret (InlineData (Some payload) (file_type f))))
  /\ (forall url,
        file_dataURL f = Some url -> comma_free url = true ->
        fileToGenerativePart f s = (s, Ret (InlineData None (file_type f))))
  /\ (file_dataURL f = None ->
      fileToGenerativePart f s = (s, Throw (Thrown None))).
Proof.
  unfold fileToGenerativePart. split; [|split].
  - intros header payload -> Hh Hp.
    change ("," +:+ payload) with (String ","%char payload).
    rewrite (split_at_first_comma header payload Hh).
    by rewrite (split_comma_free payload Hp).
  - intros url -> Hfree. by rewrite (split_comma_free url Hfree).
  - by intros ->.
Qed.

Lemma analyzeWith_missing_key contextBlock journalText journalPhotos
    spacePhotos pastEntries previousProfile sent :
  api_key_set env = false ->
  analyzeWith env contextBlock journalText journalPhotos spacePhotos
    pastEntries previousProfile sent
  = (sent, Throw (Error missing_key_message)).
Proof. intros Hkey. unfold analyzeWith. by rewrite Hkey. Qed.

Lemma analyzeWith_unreadable contextBlock journalText journalPhotos
    spacePhotos pastEntries previousProfile sent :
  api_key_set env = true ->
  forallb readable (journalPhotos ++ spacePhotos) = false ->
  analyzeWith env contextBlock journalText journalPhotos spacePhotos
    pastEntries previousProfile sent
  = (sent, Throw (Thrown None)).
Proof.
  intros Hkey Hsome. unfold analyzeWith. rewrite Hkey. simpl. unfold bind.
  by rewrite buildParts_unreadable.
Qed.

End ServiceMore.

(* ===================================================================== *)
(** * More properties of the orchestrator *)
(* ===================================================================== *)

Section CycleMore.
Import App Service Controls.
Context (env : Env).
Variable contextBlock : list JournalEntry -> UserPatternProfile -> string.

Lemma enabled_has_content (a : AppState) :
  isAnalyzeDisabled a = false ->
  (String.length (trim (journalText a)) =? 0)
    && (length (file <$> journalPhotos a) =? 0)
    && (length (file <$> spacePhotos a) =? 0) = false.
Proof.
  unfold isAnalyzeDisabled. rewrite !length_fmap.
  intros H. by apply orb_false_iff in H as [H _].
Qed.

(** X3: without the credential, a click ends with the missing-key
    message whatever the inputs are; no photo is read, no request is
    sent, and history, profile and storage are untouched. *)
Theorem missing_key_cycle (b : Browser) :
  api_key_set env = false ->
  let b' := click env (analyzeWith env contextBlock) b in
  analysisState (app b')
  = {| isLoading := false; error := Some missing_key_message; result := None |}
  /\ history (app b') = history (app b)
  /\ profile (app b') = profile (app b)
  /\ localStorage b' = localStorage b
  /\ network b' = network b.
Proof.
  intros Hkey b'.
  destruct (handleAnalyze_service_failure env (analyzeWith env contextBlock)
              (app b) b (network b) (Error missing_key_message))
    as (Hh & Hp & Hls & Hn & Hst).
  { unfold serviceCall. by apply analyzeWith_missing_key. }
  done.
Qed.

(** X4: with the credential set, a photo that cannot be read ends the
    click with the default message (the rejection carries none); no
    request is sent, and history, profile and storage are untouched. *)
Theorem unreadable_photo_cycle (b : Browser) :
  api_key_set env = true ->
  forallb readable
    ((file <$> journalPhotos (app b)) ++ (file <$> spacePhotos (app b))) = false ->
  let b' := click env (analyzeWith env contextBlock) b in
  analysisState (app b')
  = {| isLoading := false;
       error := Some "Something went wrong during analysis.";
       result := None |}
  /\ history (app b') = history (app b)
  /\ profile (app b') = profile (app b)
  /\ localStorage b' = localStorage b
  /\ network b' = network b.
Proof.
  intros Hkey Hsome b'.
  destruct (handleAnalyze_service_failure env (analyzeWith env contextBlock)
              (app b) b (network b) (Thrown None))
    as (Hh & Hp & Hls & Hn & Hst).
  { unfold serviceCall. by apply analyzeWith_unreadable. }
  done.
Qed.

(** X5: with the credential set, the button enabled and every photo
    readable, a click sends exactly one request; when the endpoint
    rejects it, answers without text, with a text that is not JSON or
    with null, the click ends with the one generic failure message,
    whatever error the endpoint gave, and history, profile and storage
    are untouched. *)
Theorem unusable_answer_cycle (b : Browser) :
  let a := app b in
  let req :=
    mkRequest
      ([ TextPart (contextBlock (history a) (profile a));
         if nonempty (trim (journalText a))
         then TextPart ("JOURNAL ENTRIES/NOTES:" +:+ nl +:+ journalText a)
         else TextPart "(No text provided for this entry)" ]
       ++ batch journal_caption (file <$> journalPhotos a)
       ++ batch space_caption (file <$> spacePhotos a)) in
  api_key_set env = true ->
  isAnalyzeDisabled a = false ->
  forallb readable ((file <$> journalPhotos a) ++ (file <$> spacePhotos a)) = true ->
  unusable (endpoint env req) = true ->
  let b' := click env (analyzeWith env contextBlock) b in
  analysisState (app b')
  = {| isLoading := false; error := Some failed_message; result := None |}
  /\ network b' = network b ++ [req]
  /\ history (app b') = history a
  /\ profile (app b') = profile a
  /\ localStorage b' = localStorage b.
Proof.
  intros a req Hkey Hen Hread Hbad b'.
  destruct (handleAnalyze_service_failure env (analyzeWith env contextBlock)
              (app b) b (network b ++ [req]) (Error failed_message))
    as (Hh & Hp & Hls & Hn & Hst).
  { unfold serviceCall.
    rewrite (analyzeWith_dispatches env contextBlock _ _ _ _ _ _ _
               Hkey (enabled_has_content _ Hen)
               (buildParts_readable _ _ _ _ _ Hread)).
    rewrite requestAnalysis_cases. fold a. fold req. f_equal.
    destruct (endpoint env req) as [e|[[| |j]|]]; try done.
    by destruct j. }
  done.
Qed.

(** X8: the button guard and the content check of the service agree.
    While nothing is loading, the button is disabled exactly when the
    text is white space only and both pickers are empty; and a call made
    from an enabled button never fails with the no-content error. *)
Theorem enabled_button_has_content (a : AppState) (sent : list request) :
  (isLoading (analysisState a) = false ->
   (isAnalyzeDisabled a = true
    <-> whitespace_only (journalText a) = true
        /\ journalPhotos a = [] /\ spacePhotos a = []))
  /\ (isAnalyzeDisabled a = false ->
      snd (serviceCall (analyzeWith env contextBlock) a sent)
      <> Throw (Error no_content_message)).
Proof.
  split.
  - intros Hidle. unfold isAnalyzeDisabled. rewrite Hidle, orb_false_r.
    rewrite !andb_true_iff, !Nat.eqb_eq, <- trim_empty_iff.
    split.
    + intros [[Ht Hj] Hs]. split; [|split].
      * by destruct (trim (journalText a)).
      * by destruct (journalPhotos a).
      * by destruct (spacePhotos a).
    + intros (-> & -> & ->). done.
  - intros Hen. unfold serviceCall, analyzeWith.
    destruct (api_key_set env); simpl; [|discriminate].
    unfold bind.
    destruct (buildParts_spec (contextBlock (history a) (profile a))
                (journalText a) (file <$> journalPhotos a)
                (file <$> spacePhotos a) sent) as (r & Heq & _).
    rewrite Heq. destruct r as [parts|e].
    + rewrite (enabled_has_content _ Hen), requestAnalysis_cases. simpl.
      destruct (endpoint env _) as [e|[[| |j]|]]; try discriminate.
      destruct j; discriminate.
    + simpl. intros [= ->].
      assert (Hcases : forallb readable
                ((file <$> journalPhotos a) ++ (file <$> spacePhotos a)) = true
              \/ forallb readable
                ((file <$> journalPhotos a) ++ (file <$> spacePhotos a)) = false)
        by (destruct (forallb readable _); auto).
      destruct Hcases as [Hall|Hsome].
      * rewrite (buildParts_readable _ _ _ _ _ Hall) in Heq. discriminate.
      * rewrite (buildParts_unreadable _ _ _ _ _ Hsome) in Heq. discriminate.
Qed.

End CycleMore.

Section AnyService.
Import App Controls.
Context (env : Env).
Variable analyzePatterns :
  string -> list File -> list File -> list JournalEntry ->
  UserPatternProfile -> M (list request) (AnalysisResult * UserPatternProfile).

(** The handler never throws and never touches the inputs. *)
Lemma handleAnalyze_returns (a : AppState) (b : Browser) :
  let b' := fst (handleAnalyze env analyzePatterns a b) in
  snd (handleAnalyze env analyzePatterns a b) = Ret tt
  /\ journalText (app b') = journalText (app b)
  /\ journalPhotos (app b') = journalPhotos (app b)
  /\ spacePhotos (app b') = spacePhotos (app b).
Proof.
  unfold handleAnalyze, bind, try_catch, await, setAnalysisState, setHistory,
    setProfile, setItem_history, setItem_profile, setItem, modify, with_app.
  simpl.
  destruct (analyzePatterns _ _ _ _ _ _) as [sent' [[analysis pp]|e]]; simpl;
    [|done].
  destruct (setItem_throws env "patternMirrorHistory"); simpl; [done|].
  destruct (setItem_throws env "patternMirrorProfile"); simpl; done.
Qed.

(** The history after a click: as it was, or with the new entry last. *)
Lemma click_history (b : Browser) :
  let b' := click env analyzePatterns b in
  history (app b') = history (app b)
  \/ history (app b') = history (app b) ++ [newEntry env (app b)].
Proof.
  intros b'. subst b'. unfold click.
  destruct (serviceCall analyzePatterns (app b) (network b))
    as [sent' [[analysis pp]|e]] eqn:Hcall.
  - right.
    by destruct (handleAnalyze_service_success env _ (app b) b _ _ _ Hcall)
      as (Hh & _).
  - left.
    by destruct (handleAnalyze_service_failure env _ (app b) b _ _ Hcall)
      as (Hh & _).
Qed.

(** X6: whatever the service is, a click whose service call throws
    leaves history, profile and storage as they were; it shows the
    message of the thrown object, or the default message when there is
    none, and no result. *)
Theorem failed_call_is_atomic (b : Browser) (sent' : list request) (e : thrown) :
  serviceCall analyzePatterns (app b) (network b) = (sent', Throw e) ->
  let b' := click env analyzePatterns b in
  history (app b') = history (app b)
  /\ profile (app b') = profile (app b)
  /\ localStorage b' = localStorage b
  /\ network b' = sent'
  /\ analysisState (app b')
     = {| isLoading := false;
          error := Some (message_or_default e);
          result := None |}.
Proof.
  intros Hcall. exact (handleAnalyze_service_failure env _ (app b) b _ _ Hcall).
Qed.


End AnyService.

Section OwnService.
Import App Controls.
Context (env : Env).





End OwnService.


(* ===================================================================== *)
(** * More properties of the string functions and of the prompt *)
(* ===================================================================== *)

Section StringMore.

Lemma length_trimStart_le (s : string) :
  String.length (trimStart s) <= String.length s.
Proof.
  induction s as [|c s IH]; simpl; [done|].
  destruct (is_ws c); simpl; lia.
Qed.

Lemma length_trimEnd_le (s : string) :
  String.length (trimEnd s) <= String.length s.
Proof.
  induction s as [|c s IH]; simpl; [done|].
  destruct (trimEnd s) as [|d r]; simpl in *.
  - destruct (is_ws c); simpl; lia.
  - lia.
Qed.

Lemma length_trim_le (s : string) :
  String.length (trim s) <= String.length s.
Proof.
  unfold trim.
  pose proof (length_trimEnd_le (trimStart s)).
  pose proof (length_trimStart_le s). lia.
Qed.

Lemma trimEnd_idem (s : string) : trimEnd (trimEnd s) = trimEnd s.
Proof.
  induction s as [|c s IH]; simpl; [done|].
  destruct (trimEnd s) as [|d r] eqn:E.
  - destruct (is_ws c) eqn:Hc; simpl; [done|]. by rewrite Hc.
  - change (trimEnd (String c (String d r)))
      with (match trimEnd (String d r) with
            | EmptyString => if is_ws c then EmptyString else String c EmptyString
            | r' => String c r'
            end).
    by rewrite IH.
Qed.

Lemma trimStart_head (c : ascii) (r : string) :
  is_ws c = false -> trimStart (trimEnd (String c r)) = trimEnd (String c r).
Proof.
  intros Hc. simpl. destruct (trimEnd r); rewrite ?Hc; simpl; by rewrite Hc.
Qed.

(** Trimming twice is trimming once. *)
Lemma trim_idem (s : string) : trim (trim s) = trim s.
Proof.
  unfold trim.
  destruct (trimStart_cases s) as [[-> _]|(c & r & -> & Hc & _)]; [done|].
  rewrite (trimStart_head c r Hc). apply trimEnd_idem.
Qed.

Lemma length_substring_0_min (s : string) (n : nat) :
  String.length (substring 0 n s) = Nat.min n (String.length s).
Proof.
  destruct (Nat.le_gt_cases n (String.length s)) as [Hle|Hgt].
  - rewrite length_substring_0 by done. lia.
  - rewrite substring_0_all by lia. lia.
Qed.

Lemma prefix_nl_cons (c : ascii) (r : string) :
  c <> "010"%char -> String.prefix nl (String c r) = false.
Proof.
  intros Hne. unfold nl. cbn [String.prefix].
  destruct (ascii_dec "010" c) as [Heq|_]; [congruence|done].
Qed.

Lemma includes_nl_replace_newlines (s : string) :
  includes nl (replace_newlines s) = false.
Proof.
  induction s as [|c s IH]; [done|].
  cbn [replace_newlines includes]. rewrite IH, orb_false_r.
  apply prefix_nl_cons.
  destruct (Ascii.eqb_spec c "010"%char) as [->|Hne]; [discriminate|done].
Qed.



End StringMore.

Section PromptMore.
Import Service.
Context (env : Env).


(** X9: both revisions tell the model that there are no past entries
    exactly when the history is empty.  In the revision with summarized
    entries the summary, whose emptiness selects the note, is empty only
    for an empty history; in the revision with pattern signals the block
    is the note only for an empty history. *)
Theorem first_entry_note (h : list JournalEntry) :
  nonempty (historySummaryText h) = (0 <? length h)
  /\ (pastEntriesBlock env h = "No past entries. This is the first one."
      <-> h = []).
Proof.
  split.
  - destruct h as [|e0 h0]; [done|].
    destruct (recent_nonempty (e0 :: h0)) as (e & l & Heq); [done|].
    unfold historySummaryText. rewrite Heq. simpl.
    by apply nonempty_join_cons.
  - split; [|by intros ->].
    destruct h as [|e0 h0]; [done|]. intros Hblock. exfalso.
    destruct (recent_nonempty (e0 :: h0)) as (e & l & Heq); [done|].
    unfold pastEntriesBlock in Hblock. rewrite Heq in Hblock.
    simpl in Hblock. unfold join in Hblock. simpl in Hblock.
    destruct (imap (signalsEntry env ∘ S) l); discriminate.
Qed.

Lemma count_LF_app (s t : string) :
  count_LF (s +:+ t) = count_LF s + count_LF t.
Proof.
  induction s as [|c s IH]; [done|].
  rewrite append_cons. cbn [count_LF]. rewrite IH. lia.
Qed.

Lemma count_LF_replace_newlines (s : string) :
  count_LF (replace_newlines s) = 0.
Proof.
  induction s as [|c s IH]; [done|].
  cbn [replace_newlines count_LF]. rewrite IH.
  by destruct (Ascii.eqb c "010") eqn:E; [|rewrite E].
Qed.

Lemma count_LF_digits (d : Decimal.uint) :
  count_LF (NilEmpty.string_of_uint d) = 0.
Proof. induction d; simpl; done. Qed.

Lemma count_LF_decimal (n : nat) : count_LF (decimal n) = 0.
Proof.
  unfold decimal, NilZero.string_of_uint.
  destruct (Nat.to_uint n); try apply count_LF_digits. done.
Qed.

(** X10: in the revision with pattern signals the text of an entry adds
    no line feed to its rendering: whatever the text, the rendering has
    the four line feeds of its template besides those of the formatted
    date, so putting another text in changes nothing about it.  (Only
    line feeds are replaced; a carriage return of the text is kept.)  The
    snippet itself has the length of the text when that is at most 400,
    else 400.  The revision with summarized entries replaces nothing: its
    rendering keeps the line feeds of the first 500 code units. *)
Theorem snippet_adds_no_line_feed (index : nat) (e : JournalEntry) :
  count_LF (signalsEntry env index e)
    = 4 + count_LF (toLocaleDateString env (timestamp e))
  /\ (forall t,
        count_LF (signalsEntry env index (retext e t))
        = count_LF (signalsEntry env index e))
  /\ (exists head tail,
        signalsEntry env index e
        = head +:+ dquote +:+ replace_newlines (slice0 400 (text e)) +:+ tail
        /\ String.length (replace_newlines (slice0 400 (text e)))
           = Nat.min 400 (String.length (text e))
        /\ count_LF (replace_newlines (slice0 400 (text e))) = 0
        /\ count_LF head + count_LF tail
           = 4 + count_LF (toLocaleDateString env (timestamp e)))
  /\ count_LF (summaryEntry e)
     = count_LF (timestamp e) + count_LF (slice0 500 (text e)).
Proof.
  assert (Hcount : forall e0,
    count_LF (signalsEntry env index e0)
    = 4 + count_LF (toLocaleDateString env (timestamp e0))).
  { intros e0. unfold signalsEntry. cbv zeta.
    rewrite !count_LF_app, count_LF_decimal, count_LF_replace_newlines.
    destruct (400 <? String.length (text e0)); simpl; lia. }
  split; [apply Hcount|]. split; [|split].
  - intros t. by rewrite !Hcount.
  - exists ("ENTRY #" +:+ decimal (index + 1) +:+ " – [" +:+
            toLocaleDateString env (timestamp e) +:+ "]:" +:+ nl +:+
            "- Text snippet (what you wrote): ").
    eexists. split; [|split; [|split]].
    + unfold signalsEntry. cbv zeta.
      rewrite !append_assoc. reflexivity.
    + rewrite length_replace_newlines. unfold slice0.
      apply length_substring_0_min.
    + apply count_LF_replace_newlines.
    + rewrite !count_LF_app, count_LF_decimal.
      destruct (400 <? String.length (text e)); simpl; lia.
  - unfold summaryEntry. rewrite !count_LF_app.
    destruct (500 <? String.length (text e)); simpl; lia.
Qed.

End PromptMore.

(* ===================================================================== *)
(** * Properties of the controls of the page *)
(* ===================================================================== *)

(** Induction over parsed data, through arrays and objects. *)
Lemma json_nested_ind (P : json -> Prop) :
  P JNull ->
  (forall b, P (JBool b)) ->
  (forall n, P (JNum n)) ->
  (forall s, P (JStr s)) ->
  (forall items, Forall P items -> P (JArr items)) ->
  (forall fields, Forall (fun kv => P (snd kv)) fields -> P (JObj fields)) ->
  forall j, P j.
Proof.
  intros Hnull Hbool Hnum Hstr Harr Hobj.
  fix IH 1. intros [|b|n|s|items|fields].
  - exact Hnull.
  - apply Hbool.
  - apply Hnum.
  - apply Hstr.
  - apply Harr. induction items as [|x xs IHxs]; constructor;
      [apply IH | exact IHxs].
  - apply Hobj. induction fields as [|kv fs IHfs]; constructor;
      [apply IH | exact IHfs].
Qed.

(** Data whose numbers are all finite is read back as it was written. *)
Lemma reparsed_finite (j : json) : finite_numbers j = true -> reparsed j = j.
Proof.
  induction j as [|b|n|s|items IH|fields IH] using json_nested_ind;
    cbn [reparsed finite_numbers]; try done.
  - by intros ->.
  - intros Hall. f_equal.
    induction IH as [|x xs Hx _ IHxs]; [done|].
    cbn [forallb List.map] in *. apply andb_true_iff in Hall as [H1 H2].
    by rewrite Hx, IHxs.
  - intros Hall. f_equal.
    induction IH as [|[k v] fs Hx _ IHfs]; [done|].
    cbn [forallb List.map fst snd] in *. apply andb_true_iff in Hall as [H1 H2].
    by rewrite Hx, IHfs.
Qed.

(** What is read back has finite numbers only. *)
Lemma finite_numbers_reparsed (j : json) : finite_numbers (reparsed j) = true.
Proof.
  induction j as [|b|n|s|items IH|fields IH] using json_nested_ind;
    cbn [reparsed finite_numbers]; try done.
  - by destruct (isFinite n) eqn:E.
  - induction IH as [|x xs Hx _ IHxs]; [done|].
    cbn [forallb List.map]. by rewrite Hx, IHxs.
  - induction IH as [|[k v] fs Hx _ IHfs]; [done|].
    cbn [forallb List.map fst snd] in *. by rewrite Hx, IHfs.
Qed.

Section ControlsFacts.
Import App Controls.
Context (env : Env).
Variable analyzePatterns :
  string -> list File -> list File -> list JournalEntry ->
  UserPatternProfile -> M (list request) (AnalysisResult * UserPatternProfile).
Variable createObjectURL : File -> string.
Variable confirm : string -> bool.
Variable removeItem_throws : string -> option thrown.

(** X11: clearing asks first.  When the user declines, nothing changes.
    When the user accepts and the storage lets both items go, history is
    empty, the profile is null, both stored items are gone, the form and
    the analysis on screen stay, and loading again finds nothing.  When
    the storage refuses to remove the history item, the handler throws
    after it has emptied the state: the stored items are still there. *)
Theorem clear_history (b : Browser) :
  (confirm clear_question = false ->
   clearHistory confirm removeItem_throws b = (b, Ret tt))
  /\ (confirm clear_question = true ->
      removeItem_throws "patternMirrorHistory" = None ->
      removeItem_throws "patternMirrorProfile" = None ->
      let b' := fst (clearHistory confirm removeItem_throws b) in
      snd (clearHistory confirm removeItem_throws b) = Ret tt
      /\ history (app b') = []
      /\ profile (app b') = null
      /\ localStorage b'
         = {| patternMirrorHistory := None; patternMirrorProfile := None |}
      /\ journalText (app b') = journalText (app b)
      /\ journalPhotos (app b') = journalPhotos (app b)
      /\ spacePhotos (app b') = spacePhotos (app b)
      /\ analysisState (app b') = analysisState (app b)
      /\ network b' = network b
      /\ app (fst (load env b')) = app b')
  /\ (forall e,
        confirm clear_question = true ->
        removeItem_throws "patternMirrorHistory" = Some e ->
        let b' := fst (clearHistory confirm removeItem_throws b) in
        snd (clearHistory confirm removeItem_throws b) = Throw e
        /\ history (app b') = []
        /\ profile (app b') = null
        /\ localStorage b' = localStorage b).
Proof.
  unfold clearHistory, removeItem, bind, setHistory, setProfile, modify, with_app.
  split; [|split].
  - by intros ->.
  - intros -> Hh Hp. simpl. rewrite Hh. simpl. rewrite Hp. simpl.
    repeat split; try done.
    unfold load, try_catch, bind, getItem. simpl.
    by destruct (getItem_throws env).
  - intros e -> Hh. simpl. by rewrite Hh.
Qed.

(** X12: what a click that ends with a result has stored is what the
    next mount loads, as far as [JSON.stringify] can write it.  Over the
    storage such a click leaves, loading gives back the history of that
    click, and its profile as [JSON.stringify] wrote it: a number that is
    not finite (the response had a literal such as [1e999]) comes back as
    [null], at any depth, and a profile the response did not have
    (undefined) was stored as a text that is not JSON, and loads as no
    profile, next to the history.  A profile whose numbers are all
    finite is given back as it was.  What is loaded has finite numbers
    only, so storing it again changes nothing more. *)
Theorem stored_cycle_loads_back (b : Browser) :
  let b' := click env analyzePatterns b in
  let mount := {| app := initialState; network := [];
                  localStorage := localStorage b' |} in
  result (analysisState (app b')) <> None ->
  getItem_throws env = None ->
  snd (load env mount) = Ret tt
  /\ history (app (fst (load env mount))) = history (app b')
  /\ profile (app (fst (load env mount)))
     = match profile (app b') with
       | undefined => null
       | Val j => Val (reparsed j)
       end
  /\ (forall j, profile (app b') = Val j -> finite_numbers j = true ->
        profile (app (fst (load env mount))) = Val j)
  /\ stringify_profile (profile (app (fst (load env mount))))
     = match profile (app b') with
       | undefined => Json JNull
       | Val j => Json (reparsed j)
       end.
Proof.
  intros b' mount Hres Hget. subst mount.
  destruct (click_succeeded_inv env analyzePatterns b Hres)
    as (analysis & pp & _ & Hh & Hp & _ & Hls).
  fold b' in Hh, Hp, Hls. rewrite Hls, Hh, Hp.
  unfold load, try_catch, bind, getItem. simpl. rewrite Hget. simpl.
  destruct pp as [|j]; simpl.
  - repeat split; try done.
  - repeat split; try done.
    + intros j' [= <-] Hfin. by rewrite reparsed_finite.
    + by rewrite reparsed_finite by apply finite_numbers_reparsed.
Qed.

Lemma newEntry_bounded (a : AppState) :
  inputs_bounded a -> entry_bounded (newEntry env a).
Proof.
  intros (Ht & Hj & Hs). unfold entry_bounded, newEntry. simpl.
  split; [|split; [apply trim_idem|done]].
  eapply Nat.le_trans; [apply length_trim_le | exact Ht].
Qed.

Lemma clearHistory_keeps (b : Browser) :
  let b' := fst (clearHistory confirm removeItem_throws b) in
  journalText (app b') = journalText (app b)
  /\ journalPhotos (app b') = journalPhotos (app b)
  /\ spacePhotos (app b') = spacePhotos (app b)
  /\ (history (app b') = history (app b) \/ history (app b') = []).
Proof.
  unfold clearHistory, removeItem, bind, setHistory, setProfile, modify, with_app.
  destruct (confirm clear_question); simpl; [|by auto].
  destruct (removeItem_throws "patternMirrorHistory"); simpl; [by auto|].
  destruct (removeItem_throws "patternMirrorProfile"); simpl; by auto.
Qed.

Lemma dispatch_bounded (b : Browser) (ev : event) :
  inputs_bounded (app b) /\ Forall entry_bounded (history (app b)) ->
  let b' := dispatch env analyzePatterns createObjectURL confirm
              removeItem_throws b ev in
  inputs_bounded (app b') /\ Forall entry_bounded (history (app b')).
Proof.
  intros [(Ht & Hj & Hs) Hh] b'. subst b'. unfold inputs_bounded.
  destruct ev as [value|a|a| |]; simpl.
  - split; [|done]. split; [|done].
    unfold slice0. rewrite length_substring_0_min. apply Nat.le_min_l.
  - split; [|done]. split; [done|]. split; [|done].
    by apply (step_bounded createObjectURL).
  - split; [|done]. split; [done|]. split; [done|].
    by apply (step_bounded createObjectURL).
  - destruct (isAnalyzeDisabled (app b)); [done|]. unfold click.
    destruct (handleAnalyze_returns env analyzePatterns (app b) b)
      as (_ & -> & -> & ->).
    split; [done|].
    destruct (click_history env analyzePatterns b) as [Heq|Heq];
      unfold click in Heq; rewrite Heq; [done|].
    apply Forall_app. split; [done|].
    apply Forall_singleton. by apply newEntry_bounded.
  - destruct (0 <? length (history (app b))); [|done].
    destruct (clearHistory_keeps b) as (-> & -> & -> & [->| ->]); done.
Qed.

(** X13: the bounds of the page hold in every state it can reach.  From
    a state where the text has at most 10000 code units, each picker at
    most 5 photos, and every recorded entry a trimmed text of at most
    10000 code units and photo counts of at most 5, every sequence of
    typing, picking, removing, analyzing and clearing leads to such a
    state, whatever the service and the storage do. *)
Theorem session_bounded (b : Browser) (evs : list event) :
  inputs_bounded (app b) ->
  Forall entry_bounded (history (app b)) ->
  let b' := session env analyzePatterns createObjectURL confirm
              removeItem_throws b evs in
  inputs_bounded (app b') /\ Forall entry_bounded (history (app b')).
Proof.
  intros Hin Hh. simpl. unfold session.
  assert (Hinv : inputs_bounded (app b) /\ Forall entry_bounded (history (app b)))
    by done.
  clear Hin Hh. revert b Hinv.
  induction evs as [|ev evs IH]; intros b Hinv; [done|].
  simpl. apply IH. by apply dispatch_bounded.
Qed.

End ControlsFacts.

Section PickerMore.
Import FileUpload.
Variable createObjectURL : File -> string.

(** X14: removing at a position the picker has takes that one file out,
    so the list is one shorter, and returns normally; removing at a
    position it does not have hands the unchanged list to the parent and
    then throws.  Removing the file that was just added to a picker with
    room left gives back the list as it was. *)
Theorem removeFile_range (files : list UploadedFile) (i : nat) :
  (i < length files ->
   removeFile i files = (take i files ++ drop (S i) files, Ret tt)
   /\ length (fst (removeFile i files)) = length files - 1)
  /\ (length files <= i -> removeFile i files = (files, Throw TypeError))
  /\ (forall f, length files < maxFiles ->
        fst (removeFile (length files)
               (handleFileSelect createObjectURL maxFiles files (Some [f])))
        = files).
Proof.
  assert (Hpair : removeFile i files
                  = (delete i files,
                     match files !! i with
                     | Some _ => Ret tt
                     | None => Throw TypeError
                     end)).
  { rewrite <- removeFile_delete. reflexivity. }
  split; [|split].
  - intros Hlt. rewrite Hpair. simpl.
    destruct (lookup_lt_is_Some_2 files i Hlt) as [x Hx]. rewrite Hx.
    rewrite delete_take_drop. split; [done|].
    rewrite length_app, length_take, length_drop. lia.
  - intros Hge. rewrite Hpair.
    rewrite (lookup_ge_None_2 files i Hge).
    f_equal. rewrite delete_take_drop.
    rewrite take_ge, drop_ge by lia. by rewrite app_nil_r.
  - intros f Hroom. rewrite removeFile_delete. simpl.
    rewrite take_ge by (rewrite length_app; simpl; unfold maxFiles in *; lia).
    rewrite delete_take_drop, take_app_length.
    rewrite drop_ge by (rewrite length_app; simpl; lia).
    by rewrite app_nil_r.
Qed.

End PickerMore.

(* ===================================================================== *)
(** * Properties of the revision without history *)
(* ===================================================================== *)

Section V1Facts.
Context (env : Env).

Lemma v1_buildParts_readable (journalText : string)
    (journalPhotos spacePhotos : list File) (sent : list request) :
  forallb readable (journalPhotos ++ spacePhotos) = true ->
  V1.buildParts journalText journalPhotos spacePhotos sent
  = (sent,
     Ret ((if nonempty (trim journalText)
           then [TextPart ("JOURNAL ENTRIES/NOTES:" +:+ nl +:+ journalText)]
           else [])
          ++ batch journal_caption journalPhotos
          ++ batch space_caption spacePhotos)).
Proof.
  intros Hall. rewrite forallb_app in Hall.
  apply andb_true_iff in Hall as [Hj Hs].
  unfold V1.buildParts, bind.
  rewrite (batch_push journal_caption journalPhotos _ sent Hj).
  rewrite (batch_push space_caption spacePhotos _ sent Hs).
  rewrite <- app_assoc. by destruct (nonempty (trim journalText)).
Qed.

Lemma v1_buildParts_unreadable (journalText : string)
    (journalPhotos spacePhotos : list File) (sent : list request) :
  forallb readable (journalPhotos ++ spacePhotos) = false ->
  V1.buildParts journalText journalPhotos spacePhotos sent
  = (sent, Throw (Thrown None)).
Proof.
  intros Hsome. rewrite forallb_app in Hsome.
  unfold V1.buildParts, bind.
  destruct (forallb readable journalPhotos) eqn:Hj.
  - simpl in Hsome.
    rewrite (batch_push journal_caption journalPhotos _ sent Hj).
    by rewrite (batch_push_unreadable space_caption spacePhotos _ sent Hsome).
  - by rewrite (batch_push_unreadable journal_caption journalPhotos _ sent Hj).
Qed.

(** Past the credential check, the call on parts that were built. *)
Lemma v1_analyzePatterns_cases (journalText : string)
    (journalPhotos spacePhotos : list File) (sent : list request)
    (parts : list part) :
  Service.api_key_set env = true ->
  V1.buildParts journalText journalPhotos spacePhotos sent = (sent, Ret parts) ->
  V1.analyzePatterns env journalText journalPhotos spacePhotos sent
  = if length parts =? 0
    then (sent, Throw (Error Service.no_content_message))
    else (sent ++ [V1.mkRequest parts],
          match endpoint env (V1.mkRequest parts) with
          | Response (Some (Json j)) => Ret j
          | _ => Throw (Error Service.failed_message)
          end).
Proof.
  intros Hkey Hparts. unfold V1.analyzePatterns. rewrite Hkey. simpl.
  unfold bind at 1. rewrite Hparts.
  destruct (length parts =? 0); [done|].
  unfold try_catch, bind, V1.generateContent.
  by destruct (endpoint env (V1.mkRequest parts)) as [e|[[| |j]|]].
Qed.

Lemma batch_nil_inv (caption : string) (files : list File) :
  batch caption files = [] -> files = [].
Proof. by destruct files. Qed.

(** X15: in the revision without history the content check is a test
    that no part was built.  With the credential set, the call fails
    with the no-content error exactly when the text is white space only
    and both batches are empty, the same submissions that the later
    revisions reject; and then nothing was sent. *)
Theorem v1_content_check (journalText : string)
    (journalPhotos spacePhotos : list File) (sent : list request) :
  Service.api_key_set env = true ->
  (snd (V1.analyzePatterns env journalText journalPhotos spacePhotos sent)
   = Throw (Error Service.no_content_message)
   <-> whitespace_only journalText = true
       /\ journalPhotos = [] /\ spacePhotos = [])
  /\ (whitespace_only journalText = true ->
      V1.analyzePatterns env journalText [] [] sent
      = (sent, Throw (Error Service.no_content_message))).
Proof.
  intros Hkey.
  assert (Hblank : whitespace_only journalText = true ->
            V1.analyzePatterns env journalText [] [] sent
            = (sent, Throw (Error Service.no_content_message))).
  { intros Hws. apply trim_empty_iff in Hws.
    rewrite (v1_analyzePatterns_cases journalText [] [] sent [] Hkey); [done|].
    rewrite v1_buildParts_readable by done. by rewrite Hws. }
  split; [|exact Hblank]. split.
  - destruct (forallb readable (journalPhotos ++ spacePhotos)) eqn:Hread.
    + rewrite (v1_analyzePatterns_cases _ _ _ _ _ Hkey
                 (v1_buildParts_readable _ _ _ _ Hread)).
      destruct (length _ =? 0) eqn:Hlen.
      * intros _. apply Nat.eqb_eq, length_zero_iff_nil in Hlen.
        apply app_eq_nil in Hlen as [Ht Hrest].
        apply app_eq_nil in Hrest as [Hj Hs].
        apply batch_nil_inv in Hj, Hs. split; [|done].
        apply trim_empty_iff.
        destruct (trim journalText); [done|discriminate].
      * simpl. destruct (endpoint env _) as [e|[[| |j]|]]; discriminate.
    + unfold V1.analyzePatterns. rewrite Hkey. simpl. unfold bind.
      rewrite (v1_buildParts_unreadable _ _ _ _ Hread). discriminate.
  - intros (Hws & -> & ->). by rewrite (Hblank Hws).
Qed.

(** X16: in the revision without history the parsed response is the
    result, as it came.  With the credential set, content to send and
    every photo readable, a click sends one request, and when the answer
    is JSON the click ends with that value as the result and no error.
    For the JSON null the page is then as before the click: no result
    and no error. *)
Theorem v1_result_verbatim (b : V1.Browser) (j : json) :
  let a := V1.app b in
  let req :=
    V1.mkRequest
      ((if nonempty (trim (V1.journalText a))
        then [TextPart ("JOURNAL ENTRIES/NOTES:" +:+ nl +:+ V1.journalText a)]
        else [])
       ++ batch journal_caption (file <$> V1.journalPhotos a)
       ++ batch space_caption (file <$> V1.spacePhotos a)) in
  Service.api_key_set env = true ->
  contents req <> [] ->
  forallb readable ((file <$> V1.journalPhotos a) ++ (file <$> V1.spacePhotos a))
  = true ->
  endpoint env req = Response (Some (Json j)) ->
  let b' := V1.click env b in
  V1.analysisState (V1.app b')
  = {| V1.isLoading := false; V1.error := None; V1.result := j |}
  /\ V1.network b' = V1.network b ++ [req]
  /\ (j = JNull ->
      V1.analysisState (V1.app b') = V1.analysisState V1.initialState).
Proof.
  intros a req Hkey Hparts Hread Hend b'. subst b'.
  unfold V1.click, V1.handleAnalyze, bind, try_catch, V1.await,
    V1.setAnalysisState, modify. simpl.
  fold a.
  rewrite (v1_analyzePatterns_cases _ _ _ _ _ Hkey
             (v1_buildParts_readable _ _ _ _ Hread)).
  fold req.
  destruct (length _ =? 0) eqn:Hlen.
  { apply Nat.eqb_eq, length_zero_iff_nil in Hlen. by destruct Hparts. }
  rewrite Hend. simpl. split; [done|]. split; [done|]. by intros ->.
Qed.

End V1Facts.

(* ===================================================================== *)
(** * Properties of the result view *)
(* ===================================================================== *)

Section ViewFacts.
Import ResultView.

Lemma ListContent_showable (v : value) :
  showable_list v = true -> ListContent v = Ret (listView v).
Proof.
  destruct v as [|[| | | |l|]]; try done. simpl.
  destruct l as [|x l]; [done|]. intros Hok.
  unfold ListContent, map_items. cbn [truthy negb orb length_of length].
  replace (is_zero (Val (JNum (Z.of_nat (S (length l)))))) with false
    by (unfold is_zero; symmetry; apply Z.eqb_neq; lia).
  by rewrite Hok.
Qed.

Lemma ListContent_not_a_list (v : value) :
  not_a_list v = true -> ListContent v = Throw TypeError.
Proof.
  destruct v as [|[|b|n|s| |fields]]; try done; simpl.
  - by intros ->.
  - intros Hn. unfold ListContent. simpl. by rewrite Hn.
  - intros Hs. unfold ListContent. simpl. rewrite Hs. simpl.
    destruct s as [|c s]; [done|].
    replace (Z.of_nat (String.length (String c s)) =? 0)%Z with false; [done|].
    symmetry. apply Z.eqb_neq. simpl. lia.
  - intros Hl. unfold ListContent. simpl.
    by rewrite (negb_true_iff _) in Hl; rewrite Hl.
Qed.

Lemma prompts_showable (v : value) :
  showable_list v = true ->
  prompts v = Ret (itemsOf v) /\ cards (itemsOf v) = Ret (itemsOf v).
Proof.
  destruct v as [|[| | | |l|]]; try done. simpl. unfold cards. by intros ->.
Qed.

Lemma child_showable (v : value) :
  showable_text v = true -> child v = Ret v.
Proof. destruct v as [|j]; [done|]. simpl. by intros ->. Qed.

(** The view of data whose fields can all be shown. *)
Lemma view_renders (data : AnalysisResult) :
  showable_text (overview data) = true ->
  showable_list (emotional_patterns data) = true ->
  showable_list (environment_patterns data) = true ->
  showable_list (behavioral_loops data) = true ->
  showable_list (triggers data) = true ->
  showable_list (recurring_themes data) = true ->
  showable_text (core_pursuits_and_why data) = true ->
  showable_list (reflection_prompts data) = true ->
  AnalysisResultView data
  = Ret {| shown_overview := overview data;
           shown_emotional := listView (emotional_patterns data);
           shown_environment := listView (environment_patterns data);
           shown_loops := listView (behavioral_loops data);
           shown_triggers := listView (triggers data);
           shown_themes := listView (recurring_themes data);
           shown_pursuits :=
             if truthy (core_pursuits_and_why data)
             then core_pursuits_and_why data
             else Val (JStr no_pursuits_note);
           shown_prompts := itemsOf (reflection_prompts data) |}.
Proof.
  intros Ho H1 H2 H3 H4 H5 Hp Hq. unfold AnalysisResultView.
  destruct (prompts_showable _ Hq) as [Hmap Hcards].
  rewrite Hmap. cbn [bind_result].
  rewrite (child_showable _ Ho). cbn [bind_result].
  rewrite !ListContent_showable by done. cbn [bind_result].
  rewrite child_showable.
  - cbn [bind_result]. by rewrite Hcards.
  - by destruct (truthy (core_pursuits_and_why data)).
Qed.

(** X17: the view shows data whose fields are absent or of a shape it
    can show, and never throws on it: the overview as it is; for each of
    the five list sections the note that there is not enough data when
    the list is absent, null or empty, else one bullet per item in
    order; the pursuits text, or its note when the text is absent or
    empty; and one card per reflection prompt, none when they are
    absent. *)
Theorem view_shows_what_is_there (data : AnalysisResult) :
  showable_text (overview data) = true ->
  showable_list (emotional_patterns data) = true ->
  showable_list (environment_patterns data) = true ->
  showable_list (behavioral_loops data) = true ->
  showable_list (triggers data) = true ->
  showable_list (recurring_themes data) = true ->
  showable_text (core_pursuits_and_why data) = true ->
  showable_list (reflection_prompts data) = true ->
  AnalysisResultView data
  = Ret {| shown_overview := overview data;
           shown_emotional := listView (emotional_patterns data);
           shown_environment := listView (environment_patterns data);
           shown_loops := listView (behavioral_loops data);
           shown_triggers := listView (triggers data);
           shown_themes := listView (recurring_themes data);
           shown_pursuits :=
             if truthy (core_pursuits_and_why data)
             then core_pursuits_and_why data
             else Val (JStr no_pursuits_note);
           shown_prompts := itemsOf (reflection_prompts data) |}.
Proof. apply view_renders. Qed.

Lemma conforms_STRING_child (j : json) :
  conforms STRING j = true -> valid_child j = true.
Proof. by destruct j. Qed.

Lemma conforms_strings_children (l : list json) :
  forallb (conforms STRING) l = true -> forallb valid_child l = true.
Proof.
  induction l as [|x l IH]; [done|]. simpl.
  rewrite !andb_true_iff. intros [Hx Hl].
  split; [by apply conforms_STRING_child | by apply IH].
Qed.

Lemma conforms_required_text (k : string) (fields : list (string * json)) :
  match lookup_field k fields with undefined => false | Val _ => true end = true ->
  match lookup_field k fields with
  | undefined => true
  | Val v => conforms STRING v
  end = true ->
  showable_text (lookup_field k fields) = true.
Proof.
  destruct (lookup_field k fields) as [|v]; [done|]. intros _.
  apply conforms_STRING_child.
Qed.

Lemma conforms_required_list (k : string) (fields : list (string * json)) :
  match lookup_field k fields with undefined => false | Val _ => true end = true ->
  match lookup_field k fields with
  | undefined => true
  | Val v => conforms (ARRAY STRING) v
  end = true ->
  showable_list (lookup_field k fields) = true.
Proof.
  destruct (lookup_field k fields) as [|v]; [done|]. intros _.
  destruct v; try done. simpl. apply conforms_strings_children.
Qed.

(** X18: the view renders every response that matches the response
    schema of the service, without throwing: what the service returns
    for such a response is data that the view shows in full. *)
Theorem view_of_conforming_response (j : json) :
  conforms Service.RESPONSE_SCHEMA j = true ->
  let data := fst (fields_by_name j) in
  AnalysisResultView data
  = Ret {| shown_overview := overview data;
           shown_emotional := listView (emotional_patterns data);
           shown_environment := listView (environment_patterns data);
           shown_loops := listView (behavioral_loops data);
           shown_triggers := listView (triggers data);
           shown_themes := listView (recurring_themes data);
           shown_pursuits :=
             if truthy (core_pursuits_and_why data)
             then core_pursuits_and_why data
             else Val (JStr no_pursuits_note);
           shown_prompts := itemsOf (reflection_prompts data) |}.
Proof.
  intros Hconf data. subst data.
  destruct j as [| | | | |fields]; try discriminate.
  unfold Service.RESPONSE_SCHEMA in Hconf.
  cbn [conforms forallb] in Hconf.
  repeat (apply andb_true_iff in Hconf as [? Hconf] ||
          match goal with H : _ && _ = true |- _ =>
            apply andb_true_iff in H as [? ?] end).
  apply view_renders; cbn [fst fields_by_name field_of overview
    emotional_patterns environment_patterns behavioral_loops triggers
    recurring_themes core_pursuits_and_why reflection_prompts];
    first [ by apply conforms_required_text
          | by apply conforms_required_list ].
Qed.

Lemma prompts_not_prompts (v : value) :
  not_prompts v = true -> prompts v = Throw TypeError.
Proof. by destruct v as [|[| | | | |]]. Qed.

(** A prompts field that has no [map] makes the view throw before
    anything is rendered, whatever the other fields hold. *)
Lemma prompts_fault_comes_first (data : AnalysisResult) :
  not_prompts (reflection_prompts data) = true ->
  AnalysisResultView data = Throw TypeError.
Proof.
  intros H. unfold AnalysisResultView. by rewrite (prompts_not_prompts _ H).
Qed.

(** X19: the view throws on data with a list field that is not a list.
    When one of the five list sections holds a non-empty string, a
    non-zero number, true, or an object without a length of 0, or when
    the reflection prompts hold anything but undefined, null or an
    array, rendering throws.  The service returns such fields as they
    came, so a response it accepts can make the view throw. *)
Theorem view_throws_on_mistyped_list (data : AnalysisResult) :
  not_a_list (emotional_patterns data) = true
  \/ not_a_list (environment_patterns data) = true
  \/ not_a_list (behavioral_loops data) = true
  \/ not_a_list (triggers data) = true
  \/ not_a_list (recurring_themes data) = true
  \/ not_prompts (reflection_prompts data) = true ->
  exists e, AnalysisResultView data = Throw e.
Proof.
  intros Hbad. unfold AnalysisResultView.
  destruct (prompts (reflection_prompts data)) eqn:Hmap;
    cbn [bind_result]; [|by eauto].
  destruct (child (overview data)); cbn [bind_result]; [|by eauto].
  destruct Hbad as [H|[H|[H|[H|[H|H]]]]];
    try (rewrite (prompts_not_prompts _ H) in Hmap; discriminate);
    repeat first
      [ rewrite (ListContent_not_a_list _ H); cbn [bind_result]; by eauto
      | rewrite (prompts_not_prompts _ H); cbn [bind_result]; by eauto
      | match goal with
        | |- context [bind_result (ListContent ?v) _] =>
            destruct (ListContent v); cbn [bind_result]; [|by eauto]
        | |- context [bind_result (child ?v) _] =>
            destruct (child v); cbn [bind_result]; [|by eauto]
        end ].
Qed.

End ViewFacts.

(* ===================================================================== *)
(** * The properties above on sample data *)
(* ===================================================================== *)

Section MoreScenarios.
Import App.

Lemma parts_layout_witness :
  Service.buildParts "context" "hello"
    [Fixture.png "AAAA"] [Fixture.png "BBBB"; Fixture.png "CCCC"] []
  = ([],
     Ret [ TextPart "context";
           TextPart ("JOURNAL ENTRIES/NOTES:" +:+ nl +:+ "hello");
           TextPart journal_caption;
           InlineData (Some "AAAA") "image/png";
           TextPart space_caption;
           InlineData (Some "BBBB") "image/png";
           InlineData (Some "CCCC") "image/png" ]).
Proof.
  exact (parts_layout "context" "hello"
           [Fixture.png "AAAA"] [Fixture.png "BBBB"; Fixture.png "CCCC"] []
           eq_refl).
Defined.

Lemma data_url_payload_witness :
  Service.fileToGenerativePart (Fixture.png "AAAA") tt
  = (tt, Ret (InlineData (Some "AAAA") "image/png")).
Proof.
  exact (proj1 (data_url_payload (Fixture.png "AAAA") tt)
           "data:image/png;base64" "AAAA" eq_refl eq_refl eq_refl).
Defined.

Lemma missing_key_cycle_witness :
  analysisState
    (app (click Sample.env_no_key
            (Service.analyzePatterns Sample.env_no_key)
            (Sample.fresh (Sample.typed Sample.desk_text))))
  = {| isLoading := false;
       error := Some Service.missing_key_message;
       result := None |}.
Proof.
  exact (proj1 (missing_key_cycle Sample.env_no_key
                  (Service.signalsContext Sample.env_no_key)
                  (Sample.fresh (Sample.typed Sample.desk_text)) eq_refl)).
Defined.

Lemma unreadable_photo_cycle_witness :
  analysisState
    (app (click Sample.env (Service.analyzePatterns Sample.env)
            (Sample.fresh
               (Fixture.with_photos "notes"
                  [Fixture.png "AAAA"; Fixture.unreadable] []))))
  = {| isLoading := false;
       error := Some "Something went wrong during analysis.";
       result := None |}.
Proof.
  exact (proj1 (unreadable_photo_cycle Sample.env
                  (Service.signalsContext Sample.env)
                  (Sample.fresh
                     (Fixture.with_photos "notes"
                        [Fixture.png "AAAA"; Fixture.unreadable] []))
                  eq_refl eq_refl)).
Defined.

Lemma unusable_answer_cycle_witness :
  analysisState
    (app (click Fixture.env_offline
            (Service.analyzePatterns Fixture.env_offline)
            (Sample.fresh (Sample.typed Sample.desk_text))))
  = {| isLoading := false;
       error := Some Service.failed_message;
       result := None |}.
Proof.
  exact (proj1 (unusable_answer_cycle Fixture.env_offline
                  (Service.signalsContext Fixture.env_offline)
                  (Sample.fresh (Sample.typed Sample.desk_text))
                  eq_refl eq_refl eq_refl eq_refl)).
Defined.

Lemma failed_call_is_atomic_witness :
  history
    (app (click Fixture.env_offline
            (Service.analyzePatterns Fixture.env_offline)
            (Sample.fresh (Sample.typed Sample.desk_text))))
  = [].
Proof.
  exact (proj1 (failed_call_is_atomic Fixture.env_offline
                  (Service.analyzePatterns Fixture.env_offline)
                  (Sample.fresh (Sample.typed Sample.desk_text))
                  _ _ eq_refl)).
Defined.

Lemma enabled_button_has_content_witness :
  snd (serviceCall (Service.analyzePatterns Sample.env)
         (Sample.typed Sample.desk_text) [])
  <> Throw (Error Service.no_content_message).
Proof.
  exact (proj2 (enabled_button_has_content Sample.env
                  (Service.signalsContext Sample.env)
                  (Sample.typed Sample.desk_text) []) eq_refl).
Defined.

Lemma first_entry_note_witness :
  nonempty (Service.historySummaryText Sample.fifteen) = true
  /\ Service.pastEntriesBlock Sample.env []
     = "No past entries. This is the first one.".
Proof.
  split.
  - exact (proj1 (first_entry_note Sample.env Sample.fifteen)).
  - exact (proj2 (proj2 (first_entry_note Sample.env [])) eq_refl).
Defined.

Lemma clear_history_witness :
  localStorage
    (fst (Controls.clearHistory (Fixture.always true) Fixture.never_throws
            (Sample.mounted Sample.half_corrupt)))
  = {| patternMirrorHistory := None; patternMirrorProfile := None |}.
Proof.
  destruct (clear_history Sample.env (Fixture.always true) Fixture.never_throws
              (Sample.mounted Sample.half_corrupt)) as (_ & Hyes & _).
  destruct (Hyes eq_refl eq_refl eq_refl) as (_ & _ & _ & Hls & _).
  exact Hls.
Defined.

Lemma stored_cycle_loads_back_witness :
  let b' := click Sample.env (Service.analyzePatterns Sample.env)
              (Sample.fresh (Sample.typed Sample.desk_text)) in
  let loaded := fst (load Sample.env
                       {| app := initialState; network := [];
                          localStorage := localStorage b' |}) in
  history (app loaded) = history (app b')
  /\ profile (app loaded) = profile (app b').
Proof.
  assert (H : result (analysisState (app
            (click Sample.env (Service.analyzePatterns Sample.env)
               (Sample.fresh (Sample.typed Sample.desk_text))))) <> None)
    by (vm_compute; discriminate).
  destruct (stored_cycle_loads_back Sample.env
              (Service.analyzePatterns Sample.env)
              (Sample.fresh (Sample.typed Sample.desk_text)) H eq_refl)
    as (_ & Hh & _ & Hfinite & _).
  split; [exact Hh|].
  eapply eq_trans; [eapply Hfinite|].
  - vm_compute. reflexivity.
  - vm_compute. reflexivity.
  - vm_compute. reflexivity.
Defined.

(** A profile with a number that is not finite is not given back as it
    was: the number is stored, and loaded, as [null]. *)
Lemma unbounded_number_not_restored :
  let b' := click Sample.env_unbounded
              (Service.analyzePatterns Sample.env_unbounded)
              (Sample.fresh (Sample.typed Sample.desk_text)) in
  let loaded := fst (load Sample.env_unbounded
                       {| app := initialState; network := [];
                          localStorage := localStorage b' |}) in
  result (analysisState (app b')) <> None
  /\ profile (app b')
     = Val (JObj [ ("summary", JStr "Prepares the space before acting.");
                   ("intensity", JNum (10 ^ 999)) ])
  /\ profile (app loaded)
     = Val (JObj [ ("summary", JStr "Prepares the space before acting.");
                   ("intensity", JNull) ])
  /\ history (app loaded) = history (app b').
Proof. vm_compute. repeat split; done. Qed.

Lemma session_bounded_witness :
  let b' :=
    Controls.session Sample.env (Service.analyzePatterns Sample.env)
      Fixture.objectURL (Fixture.always true) Fixture.never_throws
      (Sample.fresh initialState)
      [ Controls.ChangeText "  hello  ";
        Controls.JournalPicker
          (FileUpload.Select (Some [Fixture.png "AAAA"; Fixture.png "BBBB"]));
        Controls.JournalPicker (FileUpload.Remove 0);
        Controls.Analyze ] in
  inputs_bounded (app b') /\ Forall entry_bounded (history (app b')).
Proof.
  apply (session_bounded Sample.env (Service.analyzePatterns Sample.env)
           Fixture.objectURL (Fixture.always true) Fixture.never_throws
           (Sample.fresh initialState)).
  - repeat split; simpl; apply Nat.le_0_l.
  - constructor.
Defined.

Lemma removeFile_range_witness :
  FileUpload.removeFile 0
    [Fixture.uploaded (Fixture.png "AAAA"); Fixture.uploaded (Fixture.png "BBBB")]
  = ([Fixture.uploaded (Fixture.png "BBBB")], Ret tt)
  /\ FileUpload.removeFile 2
       [Fixture.uploaded (Fixture.png "AAAA"); Fixture.uploaded (Fixture.png "BBBB")]
     = ([Fixture.uploaded (Fixture.png "AAAA"); Fixture.uploaded (Fixture.png "BBBB")],
        Throw TypeError).
Proof.
  split.
  - refine (proj1 (proj1 (removeFile_range Fixture.objectURL _ 0) _)).
    simpl. lia.
  - refine (proj1 (proj2 (removeFile_range Fixture.objectURL _ 2)) _).
    simpl. lia.
Defined.

Lemma v1_content_check_witness :
  V1.analyzePatterns Sample.env "   " [] [] []
  = ([], Throw (Error Service.no_content_message)).
Proof.
  exact (proj2 (v1_content_check Sample.env "   " [] [] [] eq_refl) eq_refl).
Defined.

Lemma v1_result_verbatim_witness :
  V1.analysisState
    (V1.app (V1.click (Sample.env_answering (Some (Json JNull)))
               (Fixture.v1_fresh "hello")))
  = V1.analysisState V1.initialState.
Proof.
  refine (proj2 (proj2 (v1_result_verbatim
                   (Sample.env_answering (Some (Json JNull)))
                   (Fixture.v1_fresh "hello") JNull
                   eq_refl _ eq_refl eq_refl)) eq_refl).
  discriminate.
Defined.

Lemma view_shows_what_is_there_witness :
  ResultView.AnalysisResultView (fst (fields_by_name Sample.partial_response))
  = Ret {| ResultView.shown_overview := Val (JStr "Only an overview.");
           ResultView.shown_emotional := ResultView.NotEnoughData;
           ResultView.shown_environment := ResultView.NotEnoughData;
           ResultView.shown_loops := ResultView.NotEnoughData;
           ResultView.shown_triggers := ResultView.NotEnoughData;
           ResultView.shown_themes := ResultView.NotEnoughData;
           ResultView.shown_pursuits := Val (JStr ResultView.no_pursuits_note);
           ResultView.shown_prompts := [] |}.
Proof.
  exact (view_shows_what_is_there (fst (fields_by_name Sample.partial_response))
           eq_refl eq_refl eq_refl eq_refl eq_refl eq_refl eq_refl eq_refl).
Defined.

Lemma view_of_conforming_response_witness :
  exists v,
    ResultView.AnalysisResultView (fst (fields_by_name Sample.full_response))
    = Ret v
    /\ ResultView.shown_environment v = ResultView.NotEnoughData
    /\ ResultView.shown_triggers v
       = ResultView.Bullets [JStr "a task about to start"].
Proof.
  eexists. split.
  - exact (view_of_conforming_response Sample.full_response eq_refl).
  - split; reflexivity.
Defined.

Lemma view_throws_on_mistyped_list_witness :
  exists e,
    ResultView.AnalysisResultView
      (fst (fields_by_name (JObj [("triggers", JStr "deadlines")])))
    = Throw e.
Proof.
  apply view_throws_on_mistyped_list.
  right. right. right. left. reflexivity.
Defined.

End MoreScenarios.

(* ===================================================================== *)
(** * Accumulation across cycles *)
(* ===================================================================== *)

Section Accumulation.
Import App Service Controls.
Context (env : Env).
Variable contextBlock : list JournalEntry -> UserPatternProfile -> string.
Variable createObjectURL : File -> string.
Variable confirm : string -> bool.
Variable removeItem_throws : string -> option thrown.

Lemma click_network (b : Browser) :
  network (click env (analyzeWith env contextBlock) b)
  = fst (serviceCall (analyzeWith env contextBlock) (app b) (network b)).
Proof.
  unfold click.
  destruct (serviceCall (analyzeWith env contextBlock) (app b) (network b))
    as [sent' [[analysis pp]|e]] eqn:Hcall.
  - by destruct (handleAnalyze_service_success env _ (app b) b _ _ _ Hcall)
      as (_ & _ & Hn & _).
  - by destruct (handleAnalyze_service_failure env _ (app b) b _ _ Hcall)
      as (_ & _ & _ & Hn & _).
Qed.

(** X20: the page never sends more than one request for one event, and
    never retries.  Typing, picking, removing and clearing send nothing;
    a click on the analyze button sends nothing or exactly one request,
    which starts with the context block built from the history and the
    profile of that moment. *)
Theorem one_request_per_event (b : Browser) (ev : event) :
  let b' := dispatch env (analyzeWith env contextBlock) createObjectURL
              confirm removeItem_throws b ev in
  network b' = network b
  \/ ev = Analyze
     /\ exists rest,
          network b'
          = network b ++
            [mkRequest
               (TextPart (contextBlock (history (app b)) (profile (app b)))
                :: rest)].
Proof.
  intros b'. subst b'. destruct ev as [value|a|a| |]; simpl; try by left.
  - destruct (isAnalyzeDisabled (app b)); [by left|].
    rewrite click_network. unfold serviceCall.
    destruct (analyzeWith_sends_context env contextBlock (journalText (app b))
                (file <$> journalPhotos (app b)) (file <$> spacePhotos (app b))
                (history (app b)) (profile (app b)) (network b))
      as [Heq|[rest Heq]].
    + by left.
    + right. split; [done|]. by exists rest.
  - destruct (0 <? length (history (app b))); [|by left]. left.
    unfold clearHistory, removeItem, bind, setHistory, setProfile, modify,
      with_app.
    destruct (confirm clear_question); simpl; [|done].
    destruct (removeItem_throws "patternMirrorHistory"); simpl; [done|].
    by destruct (removeItem_throws "patternMirrorProfile").
Qed.

(** X21: the entry a cycle appends leads the next prompt.  For a history
    that ends with an entry, both revisions render that entry first (as
    entry number 1 in the revision with pattern signals), followed by
    the nine most recent of the entries before it. *)
Theorem newest_entry_leads (h : list JournalEntry) (e : JournalEntry) :
  pastEntriesBlock env (h ++ [e])
  = join (nl +:+ nl)
      (signalsEntry env 0 e
       :: imap (fun i => signalsEntry env (S i)) (take 9 (reverse h)))
  /\ historySummaryText (h ++ [e])
     = join nl (summaryEntry e :: (summaryEntry <$> take 9 (reverse h))).
Proof.
  unfold pastEntriesBlock, historySummaryText.
  rewrite recent_first, reverse_app. simpl.
  rewrite length_app. simpl.
  replace (0 <? length h + 1) with true
    by (symmetry; apply Nat.ltb_lt; lia).
  done.
Qed.

(** X22: loading is idempotent: running the load effect again on the
    state it produced changes nothing. *)
Theorem load_idempotent (b : Browser) :
  fst (load env (fst (load env b))) = fst (load env b).
Proof.
  unfold load, try_catch, bind, getItem, setHistory, setProfile, modify,
    with_app, JSON_parse, ret, throw.
  destruct b as [a sent [sh sp]]. simpl.
  destruct (getItem_throws env) as [e|]; simpl; [done|].
  destruct sh as [[| |h]|], sp as [[| |p]|]; simpl; done.
Qed.

End Accumulation.

Lemma one_request_per_event_witness :
  App.network
    (Controls.dispatch Sample.env
       (Service.analyzeWith Sample.env (Service.signalsContext Sample.env))
       Fixture.objectURL (Fixture.always true) Fixture.never_throws
       (Sample.fresh (Sample.typed Sample.desk_text))
       (Controls.ChangeText "more"))
  = [].
Proof.
  destruct (one_request_per_event Sample.env (Service.signalsContext Sample.env)
              Fixture.objectURL (Fixture.always true) Fixture.never_throws
              (Sample.fresh (Sample.typed Sample.desk_text))
              (Controls.ChangeText "more")) as [H|[H _]].
  - exact H.
  - discriminate H.
Defined.
